(** * Booking core of the detailing site: slot validation, rate limit,
      reservation and payment callbacks

    Shallow embedding of [models.py], [forms.py], [utils.py] and the booking
    routes of [routes.py].  Tables are finite maps from primary key to row,
    the request handlers are functions from the store, the client session
    and the request to an [outcome]. *)

From Stdlib Require Import ZArith Lia List Bool SpecFloat DecimalString.
From stdpp Require Import base option list gmap strings pretty sorting.

Local Open Scope string_scope.
Local Open Scope Z_scope.

(** ** Time

    A naive [datetime] is the number of microseconds elapsed since
    0001-01-01T00:00:00; ordering and [timedelta] arithmetic on datetimes are
    ordering and addition on that count. *)

Abbreviation datetime := Z.

Module timedelta.
Definition hours (h : Z) : Z := h * 3600000000.
Definition days (d : Z) : Z := d * 86400000000.
Definition seconds (s : Z) : Z := s * 1000000.
End timedelta.

(** [dt.hour] *)
Definition hour (dt : datetime) : Z := (dt / 3600000000) mod 24.

(** ** models.py *)

Inductive UserRole := ADMIN | USER.

Inductive ProductStatus := ACTIVE | COMING_SOON.

Inductive BookingStatus := PENDING | CONFIRMED | COMPLETED | CANCELLED.

#[global] Instance ProductStatus_eq_dec : EqDecision ProductStatus.
Proof. solve_decision. Defined.

#[global] Instance BookingStatus_eq_dec : EqDecision BookingStatus.
Proof. solve_decision. Defined.

(** [column.in_(values)] *)
Definition in_ (s : BookingStatus) (values : list BookingStatus) : bool :=
  bool_decide (s ∈ values).

(** [query.filter(cond)] keeps the rows that satisfy the condition;
    [.first()] returns one of them, or [None]. *)
Definition query_filter {A} (cond : Z -> A -> bool) (table : gmap Z A)
  : list (Z * A) :=
  List.filter (fun row => cond (fst row) (snd row)) (map_to_list table).

Definition first {A} (rows : list A) : option A := head rows.

Module Product.
(** [price] is [Numeric(10, 2)]: the amount counted in hundredths. *)
Record t := mk {
  name : string;
  description : option string;
  price : Z;
  status : ProductStatus;
  is_membership : bool;
  stripe_price_id : option string;
  created_at : datetime
}.
End Product.

Module Booking.
Record t := mk {
  user_id : option Z;
  product_id : Z;
  name : string;
  email : string;
  phone : string;
  start : datetime;
  end_ : datetime;
  notes : option string;
  stripe_payment_id : option string;
  status : BookingStatus;
  created_at : datetime
}.

(** The three-way [db.or_] of [check_availability], for one stored row. *)
Definition intersects (start_time end_time : datetime) (b : t) : bool :=
  ((start b <=? start_time) && (end_ b >? start_time))
  || ((start b <? end_time) && (end_ b >=? end_time))
  || ((start b >=? start_time) && (end_ b <=? end_time)).

(** [if exclude_booking_id: query = query.filter(Booking.id != ...)];
    an absent or zero id adds no filter. *)
Definition not_excluded (exclude_booking_id : option Z) (id : Z) : bool :=
  match exclude_booking_id with
  | Some x => if x =? 0 then true else negb (id =? x)
  | None => true
  end.

Definition check_availability (table : gmap Z t)
    (start_time end_time : datetime) (exclude_booking_id : option Z) : bool :=
  let query :=
    query_filter
      (fun id b =>
         in_ (status b) [PENDING; CONFIRMED]
         && intersects start_time end_time b
         && not_excluded exclude_booking_id id)
      table in
  match first query with
  | None => true
  | Some _ => false
  end.
End Booking.

Module User.
Record t := mk {
  name : string;
  email : string;
  phone : option string;
  password_hash : option string;
  role : UserRole;
  created_at : datetime
}.

(** "1 per 7 days rule", on the account's own email. *)
Definition can_book (table : gmap Z Booking.t) (utcnow : datetime) (self : t)
  : bool :=
  let cutoff_date := utcnow - timedelta.days 7 in
  let recent_booking :=
    first
      (query_filter
         (fun _ b =>
            String.eqb (Booking.email b) (email self)
            && (Booking.start b >=? cutoff_date)
            && in_ (Booking.status b) [PENDING; CONFIRMED])
         table) in
  match recent_booking with
  | None => true
  | Some _ => false
  end.
End User.

(** The store: the two tables the booking core reads and writes, and the
    primary key the next inserted booking receives. *)
Record db := mkdb {
  products : gmap Z Product.t;
  bookings : gmap Z Booking.t;
  next_booking_id : Z
}.

(** The key handed out next is not in use. *)
Definition pk_fresh (d : db) : Prop := bookings d !! next_booking_id d = None.

(** ** forms.py *)

(** What a field validator reports.  The first five stand for the messages
    of the library's own validators; [message] carries the text a
    [ValidationError] of this code base is raised with. *)
Inductive error :=
| csrf_rejected
| required
| not_a_valid_choice
| bad_length
| bad_email
| message (text : string).

(** Result of calling an inline validator: it returns, or raises
    [ValidationError(text)]. *)
Inductive raises := returns | ValidationError (text : string).

Definition errors_of (r : raises) : list error :=
  match r with
  | returns => []
  | ValidationError text => [message text]
  end.

(** The validators WTForms supplies for text fields.  Their code is the
    library's; the form below only says which field carries which. *)
Record wtforms := {
  DataRequired : string -> bool;
  Length : Z -> Z -> string -> bool;
  Email : string -> bool
}.

Module BookingForm.

(** The submitted form after field processing.  [product_id] is the value
    coerced with [int] and [start] the value parsed with the field's format,
    [None] when the raw input could not be processed.  [csrf_token] tells
    whether the hidden token field of [FlaskForm] validates. *)
Record t := mk {
  csrf_token : bool;
  product_id : option Z;
  name : string;
  email : string;
  phone : string;
  start : option datetime;
  notes : string
}.

(** [__init__]: the values offered by the product selector are the ids of
    the ACTIVE products (the labels are display text only). *)
Definition choices (d : db) : list Z :=
  List.map fst
    (query_filter
       (fun _ p => bool_decide (Product.status p = ACTIVE)) (products d)).

Definition validate_start (table : gmap Z Booking.t) (now : datetime)
    (data : datetime) : raises :=
  if data <? now + timedelta.hours 24 then
    ValidationError "Booking must be at least 24 hours in advance."
  else if (hour data <? 5) || (hour data >=? 18) then
    ValidationError "Bookings are only available between 5 AM and 6 PM."
  else
    let end_time := data + timedelta.hours 2 in
    if negb (Booking.check_availability table data end_time None) then
      ValidationError "This time slot is not available."
    else returns.

Definition validate_email (table : gmap Z Booking.t) (utcnow : datetime)
    (data : string) : raises :=
  let cutoff_date := utcnow - timedelta.days 7 in
  let recent_booking :=
    first
      (query_filter
         (fun _ b =>
            String.eqb (Booking.email b) data
            && (Booking.start b >=? cutoff_date)
            && in_ (Booking.status b) [PENDING; CONFIRMED])
         table) in
  match recent_booking with
  | Some _ =>
      ValidationError "You can only book one service per 7-day period."
  | None => returns
  end.

(** Field by field, what [Form.validate] collects.  A select field first
    checks its data against [choices]; [DataRequired] stops the chain of a
    field and leaves its own message only; the inline [validate_<field>]
    runs last in the chain of its field. *)
Definition product_id_errors (d : db) (f : t) : list error :=
  match product_id f with
  | Some v =>
      if v =? 0 then [required]
      else if bool_decide (v ∈ choices d) then []
      else [not_a_valid_choice]
  | None => [required]
  end.

Definition name_errors (w : wtforms) (f : t) : list error :=
  if negb (DataRequired w (name f)) then [required]
  else if Length w 2 100 (name f) then [] else [bad_length].

Definition email_errors (w : wtforms) (d : db) (utcnow : datetime) (f : t)
  : list error :=
  if negb (DataRequired w (email f)) then [required]
  else (if Email w (email f) then [] else [bad_email])
       ++ errors_of (validate_email (bookings d) utcnow (email f)).

Definition phone_errors (w : wtforms) (f : t) : list error :=
  if negb (DataRequired w (phone f)) then [required]
  else if Length w 10 20 (phone f) then [] else [bad_length].

Definition start_errors (d : db) (now : datetime) (f : t) : list error :=
  match start f with
  | Some data => errors_of (validate_start (bookings d) now data)
  | None => [required]
  end.

Definition notes_errors (w : wtforms) (f : t) : list error :=
  if Length w (-1) 500 (notes f) then [] else [bad_length].

Definition field_errors (w : wtforms) (d : db) (now utcnow : datetime) (f : t)
  : list (string * list error) :=
  [ ("csrf_token", if csrf_token f then [] else [csrf_rejected]);
    ("product_id", product_id_errors d f);
    ("name", name_errors w f);
    ("email", email_errors w d utcnow f);
    ("phone", phone_errors w f);
    ("start", start_errors d now f);
    ("notes", notes_errors w f) ].

(** [form.errors]: the fields that have errors. *)
Definition errors (w : wtforms) (d : db) (now utcnow : datetime) (f : t)
  : list (string * list error) :=
  List.filter (fun fe => negb (bool_decide (snd fe = [])))
    (field_errors w d now utcnow f).

Definition validate (w : wtforms) (d : db) (now utcnow : datetime) (f : t)
  : bool :=
  bool_decide (errors w d now utcnow f = []).

End BookingForm.

(** ** utils.py *)

(** Python's [float] is IEEE 754 binary64. *)
Definition prec : Z := 53.
Definition emax : Z := 1024.

Definition float_of_Z (z : Z) : spec_float :=
  match z with
  | Z0 => S754_zero false
  | Zpos p => binary_normalize prec emax (Z.pos p) 0 false
  | Zneg p => binary_normalize prec emax (Z.pos p) 0 true
  end.

(** [float(price)] for a two-place decimal: the double nearest to
    hundredths / 100.  Both operands are exact doubles (a [Numeric(10, 2)]
    is below 2^53 hundredths) and IEEE division rounds the exact quotient
    to nearest, which is the conversion Python performs. *)
Definition float_of_decimal (hundredths : Z) : spec_float :=
  SFdiv prec emax (float_of_Z hundredths) (float_of_Z 100).

(** [int(x)] truncates towards zero; it raises on infinities and NaN. *)
Definition int (x : spec_float) : option Z :=
  match x with
  | S754_zero _ => Some 0
  | S754_finite s m e =>
      let magnitude :=
        if 0 <=? e then Z.pos m * 2 ^ e else Z.pos m / 2 ^ (- e) in
      Some (if s then - magnitude else magnitude)
  | S754_infinity _ => None
  | S754_nan => None
  end.

(** [int(float(product.price) * 100)] *)
Definition unit_amount_of (price : Z) : option Z :=
  int (SFmul prec emax (float_of_decimal price) (float_of_Z 100)).

Inductive line_item :=
| price_ref (price : string) (quantity : Z)
| price_data (currency : string) (product_name : string)
    (product_description : option string) (unit_amount : Z) (quantity : Z).

Record session_params := {
  line_items : list line_item;
  mode : string;
  success_url : string;
  cancel_url : string;
  automatic_tax : bool;
  billing_address_collection : string;
  customer_creation : string
}.

Record checkout_session := { url : string }.

(** The payment processor as the code reaches it: the configured key and
    [stripe.checkout.Session.create], [None] when the call raises.  [paid]
    is the processor's own record of which bookings' checkouts were paid;
    no function of the code base reads it. *)
Record stripe := {
  api_key : option string;
  Session_create : session_params -> option checkout_session;
  paid : Z -> bool
}.

(** Truth value of an optional string: [None] and the empty string are
    false. *)
Definition truthy (o : option string) : bool :=
  match o with
  | Some s => negb (String.eqb s "")
  | None => false
  end.

(** The line items: the stored price when the product has one, else a
    one-off price in USD built from the product's attributes.  [None] when
    building them raises. *)
Definition build_line_items (product : Product.t) : option (list line_item) :=
  if truthy (Product.stripe_price_id product) then
    Some [price_ref (default "" (Product.stripe_price_id product)) 1]
  else
    match unit_amount_of (Product.price product) with
    | Some cents =>
        Some [price_data "usd" (Product.name product)
                (Product.description product) cents 1]
    | None => None
    end.

(** Every exception inside the [try] is caught and turned into [None]. *)
Definition create_stripe_checkout_session (st : stripe) (product : Product.t)
    (success cancel : string) : option checkout_session :=
  if negb (truthy (api_key st)) then None
  else
    match build_line_items product with
    | Some items =>
        Session_create st
          {| line_items := items;
             mode := "payment";
             success_url := success;
             cancel_url := cancel;
             automatic_tax := true;
             billing_address_collection := "required";
             customer_creation := "always" |}
    | None => None
    end.

(** Outbound mail, by purpose and recipient. *)
Inductive mail :=
| booking_confirmation (recipient : string) (booking_id : Z)
| booking_notification (recipient : string) (booking_id : Z).

Definition send_booking_confirmation (id : Z) (b : Booking.t) : list mail :=
  [booking_confirmation (Booking.email b) id].

Definition send_booking_notification (id : Z) (b : Booking.t) : list mail :=
  [booking_notification "crypticmobiledetailing@gmail.com" id].

(** ** routes.py *)

(** The client's Flask session, as far as the booking routes use it: the
    value stored under ['pending_booking_id']. *)
Record session := { pending_booking_id : option Z }.

Inductive context :=
| no_context
| with_form (errors : list (string * list error))
| with_booking (id : Z) (b : Booking.t).

Inductive response :=
| redirect (location : string)
| render_template (template : string) (ctx : context).

(** What handling one request leaves behind and answers. *)
Record outcome := {
  store : db;
  cookie : session;
  flashed : list (string * string);
  sent : list mail;
  reply : response
}.

(** What a handler reads from outside the store and the request:
    [datetime.now()] and [datetime.utcnow()] at validation, [utcnow()] when
    the row default is filled in, the logged-in user if any, the value of
    [get_domain()], the payment processor, and how the store matches a
    textual key from the query string against the integer primary key
    ([None] when no key can match it). *)
Record env := {
  lib : wtforms;
  now_ : datetime;
  utcnow_ : datetime;
  created_ : datetime;
  current_user : option Z;
  get_domain : string;
  gateway : stripe;
  pk_of_arg : string -> option Z
}.

Inductive request := GET | POST (form : BookingForm.t).

Definition with_bookings (d : db) (table : gmap Z Booking.t) (next : Z) : db :=
  {| products := products d; bookings := table; next_booking_id := next |}.

(** [db.session.add(booking); db.session.commit()]: the row is stored under
    the next primary key. *)
Definition db_add (d : db) (b : Booking.t) : Z * db :=
  let id := next_booking_id d in
  (id, with_bookings d (<[id := b]> (bookings d)) (id + 1)).

(** [db.session.delete(booking); db.session.commit()] *)
Definition db_delete (d : db) (id : Z) : db :=
  with_bookings d (delete id (bookings d)) (next_booking_id d).

Definition callback_url (e : env) (path : string) (id : Z) : string :=
  "https://" +:+ get_domain e +:+ path +:+ "?booking_id=" +:+ pretty id.

Definition form_page (errors : list (string * list error)) : response :=
  render_template "booking.html" (with_form errors).

(** [validate_on_submit()] held: the body of the [if]. *)
Definition booking_submitted (e : env) (d : db) (s : session)
    (form : BookingForm.t) (errors : list (string * list error)) : outcome :=
  match BookingForm.product_id form ≫= (fun id => pair id <$> products d !! id) with
  | None =>
      {| store := d; cookie := s;
         flashed := [("Invalid service selected.", "error")];
         sent := []; reply := redirect "/booking" |}
  | Some (product_id, product) =>
      match BookingForm.start form with
      | None =>
          {| store := d; cookie := s; flashed := []; sent := [];
             reply := render_template "500.html" no_context |}
      | Some start =>
          let end_time := start + timedelta.hours 2 in
          let booking :=
            Booking.mk (current_user e) product_id
              (BookingForm.name form) (BookingForm.email form)
              (BookingForm.phone form) start end_time
              (Some (BookingForm.notes form)) None PENDING (created_ e) in
          let '(id, d1) := db_add d booking in
          let success := callback_url e "/booking/success" id in
          let cancel := callback_url e "/booking/cancel" id in
          match create_stripe_checkout_session (gateway e) product
                  success cancel with
          | Some checkout =>
              {| store := d1; cookie := {| pending_booking_id := Some id |};
                 flashed := []; sent := []; reply := redirect (url checkout) |}
          | None =>
              {| store := db_delete d1 id; cookie := s;
                 flashed :=
                   [("Payment processing is currently unavailable. Please try again later.",
                     "error")];
                 sent := []; reply := form_page errors |}
          end
      end
  end.

Definition booking (e : env) (d : db) (s : session) (r : request) : outcome :=
  match r with
  | GET =>
      {| store := d; cookie := s; flashed := []; sent := [];
         reply := form_page [] |}
  | POST form =>
      let errors := BookingForm.errors (lib e) d (now_ e) (utcnow_ e) form in
      if BookingForm.validate (lib e) d (now_ e) (utcnow_ e) form then
        booking_submitted e d s form errors
      else
        {| store := d; cookie := s; flashed := []; sent := [];
           reply := form_page errors |}
  end.

(** Query-string arguments of the two payment callbacks. *)
Record callback_args := {
  booking_id : option string;
  payment_intent : option string
}.

(** The id a callback works with: the text of the [booking_id] argument, or
    the integer kept in the session. *)
Inductive ident := from_args (text : string) | from_session (id : Z).

(** [booking_id = request.args.get('booking_id')], replaced by
    [session.pop('pending_booking_id', None)] when it is missing or empty. *)
Definition requested_booking_id (args : callback_args) (s : session)
  : option ident * session :=
  if negb (truthy (booking_id args)) then
    (from_session <$> pending_booking_id s, {| pending_booking_id := None |})
  else (from_args <$> booking_id args, s).

(** [if booking_id:] *)
Definition ident_truthy (k : option ident) : bool :=
  match k with
  | Some (from_args text) => negb (String.eqb text "")
  | Some (from_session id) => negb (id =? 0)
  | None => false
  end.

(** [Booking.query.get(booking_id)] *)
Definition Booking_query_get (e : env) (d : db) (k : ident)
  : option (Z * Booking.t) :=
  match k with
  | from_args text => pk_of_arg e text
  | from_session id => Some id
  end ≫= fun id => pair id <$> bookings d !! id.

(** [booking.status = CONFIRMED; booking.stripe_payment_id = payment] *)
Definition confirmed (b : Booking.t) (payment : string) : Booking.t :=
  Booking.mk (Booking.user_id b) (Booking.product_id b) (Booking.name b)
    (Booking.email b) (Booking.phone b) (Booking.start b) (Booking.end_ b)
    (Booking.notes b) (Some payment) CONFIRMED (Booking.created_at b).

Definition confirmation_failed (d : db) (s : session) : outcome :=
  {| store := d; cookie := s;
     flashed :=
       [("Booking confirmation failed. Please contact us to verify your appointment.",
         "error")];
     sent := []; reply := redirect "/" |}.

Definition booking_success (e : env) (d : db) (s : session)
    (args : callback_args) : outcome :=
  let '(booking_id, s) := requested_booking_id args s in
  if ident_truthy booking_id then
    match booking_id ≫= Booking_query_get e d with
    | Some (id, b) =>
        let b := confirmed b (default "completed" (payment_intent args)) in
        {| store :=
             with_bookings d (<[id := b]> (bookings d)) (next_booking_id d);
           cookie := s;
           flashed :=
             [("Your booking has been confirmed! You will receive a confirmation email shortly.",
               "success")];
           sent := send_booking_confirmation id b
                   ++ send_booking_notification id b;
           reply := render_template "success.html" (with_booking id b) |}
    | None => confirmation_failed d s
    end
  else confirmation_failed d s.

Definition booking_cancel (e : env) (d : db) (s : session)
    (args : callback_args) : outcome :=
  let '(booking_id, s) := requested_booking_id args s in
  let d :=
    if ident_truthy booking_id then
      match booking_id ≫= Booking_query_get e d with
      | Some (id, _) => db_delete d id
      | None => d
      end
    else d in
  {| store := d; cookie := s;
     flashed := [("Booking was cancelled. No payment was processed.", "info")];
     sent := []; reply := render_template "cancel.html" no_context |}.

(** ** Vocabulary of the statements *)

(** How one request may change the row stored under a key. *)
Inductive row_change : option Booking.t -> option Booking.t -> Prop :=
| row_kept (o : option Booking.t) : row_change o o
| row_created (b : Booking.t) :
    Booking.status b = PENDING -> row_change None (Some b)
| row_confirmed (b : Booking.t) (payment : string) :
    row_change (Some b) (Some (confirmed b payment))
| row_deleted (b : Booking.t) : row_change (Some b) None.

(** One request served by the booking core. *)
Inductive core_step : db -> db -> Prop :=
| step_booking (e : env) (d : db) (s : session) (r : request) :
    pk_fresh d -> core_step d (store (booking e d s r))
| step_success (e : env) (d : db) (s : session) (args : callback_args) :
    core_step d (store (booking_success e d s args))
| step_cancel (e : env) (d : db) (s : session) (args : callback_args) :
    core_step d (store (booking_cancel e d s args)).

(** The row a callback request designates, if any: the id is taken from the
    query string or else from the session, and looked up. *)
Definition designated (e : env) (d : db) (s : session) (args : callback_args)
  : option (Z * Booking.t) :=
  let k := fst (requested_booking_id args s) in
  if ident_truthy k then k ≫= Booking_query_get e d else None.

(** Every stored booking has a key below the next one to be handed out. *)
Definition store_ok (d : db) : Prop :=
  forall id, is_Some (bookings d !! id) -> id < next_booking_id d.

(** ** Sample data *)

Definition at_ (day hh mm : Z) : datetime :=
  timedelta.days day + timedelta.hours hh + timedelta.seconds (60 * mm).

Definition detail : Product.t :=
  Product.mk "Premium Mobile Detail" (Some "Complete detailing service.")
    7500 ACTIVE false None (at_ 1 0 0).

Definition coating : Product.t :=
  Product.mk "Ceramic Coating Package" (Some "Ceramic coating.")
    29900 COMING_SOON false None (at_ 1 0 0).

Definition wax : Product.t :=
  Product.mk "Spray Wax" None 1999 ACTIVE false None (at_ 1 0 0).

Definition catalog : gmap Z Product.t :=
  <[1 := detail]> (<[2 := coating]> (<[3 := wax]> ∅)).

Definition ann (status : BookingStatus) (start : datetime) : Booking.t :=
  Booking.mk None 1 "Ann" "ann@example.com" "7065550100" start
    (start + timedelta.hours 2) None None status (at_ 90 12 0).

Definition bob (status : BookingStatus) (start : datetime) : Booking.t :=
  Booking.mk None 1 "Bob" "bob@example.com" "7065550101" start
    (start + timedelta.hours 2) None None status (at_ 90 12 0).

Definition shop (table : gmap Z Booking.t) (next : Z) : db :=
  {| products := catalog; bookings := table; next_booking_id := next |}.

Definition plain_text : wtforms :=
  {| DataRequired := fun s => negb (String.eqb s "");
     Length := fun lo hi s =>
       let n := Z.of_nat (String.length s) in
       (lo <=? n) && ((hi =? -1) || (n <=? hi));
     Email := fun s => true |}.

(** A processor that answers every request, and one that is down. *)
Definition processor_up : stripe :=
  {| api_key := Some "sk_test";
     Session_create := fun _ => Some {| url := "https://checkout.example/pay" |};
     paid := fun _ => false |}.

Definition processor_down : stripe :=
  {| api_key := Some "sk_test";
     Session_create := fun _ => None;
     paid := fun _ => false |}.

(** The store matches a textual key written as a decimal numeral. *)
Definition decimal_key (text : string) : option Z :=
  if String.eqb text "" then None
  else Z.of_uint <$> NilEmpty.uint_of_string text.

Definition site (g : stripe) (now utcnow : datetime) : env :=
  {| lib := plain_text; now_ := now; utcnow_ := utcnow; created_ := utcnow;
     current_user := None; get_domain := "localhost:5000"; gateway := g;
     pk_of_arg := decimal_key |}.

Definition order (product_id : Z) (start : datetime) : BookingForm.t :=
  BookingForm.mk true (Some product_id) "Ann" "ann@example.com" "7065550100"
    (Some start) "".

Definition no_session : session := {| pending_booking_id := None |}.

Definition by_id (text : string) : callback_args :=
  {| booking_id := Some text; payment_intent := None |}.

(** Day 100 at 10:00, requested on day 98. *)
Definition slot : datetime := at_ 100 10 0.

Definition today : env := site processor_up (at_ 98 9 0) (at_ 98 13 0).

Definition today_down : env := site processor_down (at_ 98 9 0) (at_ 98 13 0).

Definition one_booking (status : BookingStatus) : db :=
  shop (<[1 := ann status slot]> ∅) 2.

Definition empty_shop : db := shop ∅ 1.

(** ** utils.py: the domain used in callback URLs *)

Module utils.

Definition comma : Ascii.ascii := Ascii.ascii_of_nat 44.

(** [text.split(',')[0]] *)
Fixpoint before_comma (text : string) : string :=
  match text with
  | EmptyString => EmptyString
  | String c rest =>
      if Ascii.eqb c comma then EmptyString else String c (before_comma rest)
  end.

(** [environ] is [os.environ]. *)
Definition get_domain (environ : gmap string string) : option string :=
  if truthy (environ !! "REPLIT_DEPLOYMENT") then
    environ !! "REPLIT_DEV_DOMAIN"
  else
    let domains := default "" (environ !! "REPLIT_DOMAINS") in
    if negb (String.eqb domains "") then Some (before_comma domains)
    else Some "localhost:5000".

End utils.

Fixpoint has_comma (text : string) : bool :=
  match text with
  | EmptyString => false
  | String c rest => Ascii.eqb c utils.comma || has_comma rest
  end.

(** ** routes.py: admin pages *)

#[global] Instance UserRole_eq_dec : EqDecision UserRole.
Proof. solve_decision. Defined.

(** A view behind [@login_required]: an anonymous visitor is sent to the
    login view by Flask-Login before the function body runs. *)
Inductive guarded (A : Type) := login_needed | served (a : A).

Arguments login_needed {A}.
Arguments served {A} a.

Record admin_outcome := {
  after : db;
  notices : list (string * string);
  answer : response
}.

Definition access_denied (d : db) : admin_outcome :=
  {| after := d; notices := [("Access denied.", "error")];
     answer := redirect "/" |}.

(** [get_or_404] found no row: the 404 handler renders its page. *)
Definition not_found_error (d : db) : admin_outcome :=
  {| after := d; notices := [];
     answer := render_template "404.html" no_context |}.

(** [product.bookings]: the bookings whose [product_id] is the product's
    key. *)
Definition Product_bookings (d : db) (product_id : Z) : list (Z * Booking.t) :=
  query_filter (fun _ b => Booking.product_id b =? product_id) (bookings d).

Definition admin_delete_product (user : option User.t) (d : db)
    (product_id : Z) : guarded admin_outcome :=
  match user with
  | None => login_needed
  | Some u =>
      served
        (if negb (bool_decide (User.role u = ADMIN)) then access_denied d
         else
           match products d !! product_id with
           | None => not_found_error d
           | Some product =>
               match Product_bookings d product_id with
               | _ :: _ =>
                   {| after := d;
                      notices :=
                        [("Cannot delete product with existing bookings.",
                          "error")];
                      answer := redirect "/admin/products" |}
               | [] =>
                   {| after :=
                        {| products := delete product_id (products d);
                           bookings := bookings d;
                           next_booking_id := next_booking_id d |};
                      notices := [("Product deleted successfully!", "success")];
                      answer := redirect "/admin/products" |}
               end
           end)
  end.

(** [Booking.query.filter_by(status=...)] *)
Definition filter_by_status (status : BookingStatus) (table : gmap Z Booking.t)
  : list (Z * Booking.t) :=
  query_filter (fun _ b => bool_decide (Booking.status b = status)) table.

(** [created_at.desc()] *)
Definition newer (x y : Z * Booking.t) : Prop :=
  Booking.created_at (snd y) <= Booking.created_at (snd x).

#[global] Instance newer_dec (x y : Z * Booking.t) : Decision (newer x y).
Proof. unfold newer. apply _. Defined.

(** [sum(booking.product.price for booking in rows)]; [None] when a row has
    no product, where the attribute access raises. *)
Fixpoint sum_prices (d : db) (rows : list (Z * Booking.t)) : option Z :=
  match rows with
  | [] => Some 0
  | row :: rest =>
      match products d !! Booking.product_id (snd row), sum_prices d rest with
      | Some product, Some total => Some (Product.price product + total)
      | _, _ => None
      end
  end.

Record dashboard := {
  total_bookings : nat;
  pending_bookings : nat;
  confirmed_bookings : nat;
  recent_bookings : list (Z * Booking.t);
  total_revenue : Z
}.

Inductive dashboard_reply :=
| dashboard_denied
| dashboard_error
| dashboard_page (stats : dashboard).

(** Rows with equal [created_at] come in the order the sort leaves them;
    the query does not fix it. *)
Definition admin_dashboard (user : option User.t) (d : db)
  : guarded dashboard_reply :=
  match user with
  | None => login_needed
  | Some u =>
      served
        (if negb (bool_decide (User.role u = ADMIN)) then dashboard_denied
         else
           let total := length (map_to_list (bookings d)) in
           let pending := length (filter_by_status PENDING (bookings d)) in
           let confirmed := length (filter_by_status CONFIRMED (bookings d)) in
           let recent :=
             take 10 (merge_sort newer (map_to_list (bookings d))) in
           let confirmed_booking_list :=
             filter_by_status CONFIRMED (bookings d) in
           match sum_prices d confirmed_booking_list with
           | Some revenue =>
               dashboard_page
                 {| total_bookings := total;
                    pending_bookings := pending;
                    confirmed_bookings := confirmed;
                    recent_bookings := recent;
                    total_revenue := revenue |}
           | None => dashboard_error
           end)
  end.

(** ** More vocabulary *)

Definition active (b : Booking.t) : bool :=
  in_ (Booking.status b) [PENDING; CONFIRMED].

(** The half-open slots of two bookings meet. *)
Definition slots_meet (a b : Booking.t) : Prop :=
  Booking.start a < Booking.end_ b /\ Booking.start b < Booking.end_ a.

(** No two active bookings occupy slots that meet. *)
Definition no_double_booking (d : db) : Prop :=
  forall i j a b,
    i <> j -> bookings d !! i = Some a -> bookings d !! j = Some b ->
    active a = true -> active b = true -> ~ slots_meet a b.

(** A stored booking lasts two hours, starts within business hours and
    refers to a stored product. *)
Definition booking_ok (d : db) (b : Booking.t) : Prop :=
  Booking.end_ b = Booking.start b + timedelta.hours 2
  /\ 5 <= hour (Booking.start b) < 18
  /\ is_Some (products d !! Booking.product_id b).

Definition bookings_ok (d : db) : Prop :=
  forall id b, bookings d !! id = Some b -> booking_ok d b.

(** The row [booking] stores for a validated form. *)
Definition new_booking (e : env) (f : BookingForm.t) (product_id : Z)
    (start : datetime) : Booking.t :=
  Booking.mk (current_user e) product_id (BookingForm.name f)
    (BookingForm.email f) (BookingForm.phone f) start
    (start + timedelta.hours 2) (Some (BookingForm.notes f)) None PENDING
    (created_ e).

Definition no_args (payment : option string) : callback_args :=
  {| booking_id := None; payment_intent := payment |}.

Definition staff (role : UserRole) : User.t :=
  User.mk "Admin" "crypticmobiledetailing@gmail.com" None None role
    (at_ 1 0 0).

Definition checkout_page : checkout_session :=
  {| url := "https://checkout.example/pay" |}.

(** The dashboard of a shop with one PENDING booking. *)
Definition one_pending : dashboard :=
  {| total_bookings := 1; pending_bookings := 1; confirmed_bookings := 0;
     recent_bookings := [(1, ann PENDING slot)]; total_revenue := 0 |}.

Definition replit (domains : string) : gmap string string :=
  <["REPLIT_DOMAINS" := domains]> ∅.

(** What the success callback leaves when it confirms the booking [b]
    stored under [id]: that row carries CONFIRMED and the payment
    reference (the [payment_intent] argument, or "completed" without one),
    no other row and no product changes, and both notifications go out. *)
Definition confirms (d : db) (args : callback_args) (id : Z) (b : Booking.t)
    (o : outcome) : Prop :=
  let payment := default "completed" (payment_intent args) in
  bookings (store o) = <[id := confirmed b payment]> (bookings d)
  /\ products (store o) = products d
  /\ Booking.status (confirmed b payment) = CONFIRMED
  /\ Booking.stripe_payment_id (confirmed b payment) = Some payment
  /\ (payment_intent args = None ->
      Booking.stripe_payment_id (confirmed b payment) = Some "completed")
  /\ sent o
     = [booking_confirmation (Booking.email b) id;
        booking_notification "crypticmobiledetailing@gmail.com" id]
  /\ flashed o
     = [("Your booking has been confirmed! You will receive a confirmation email shortly.",
         "success")].

(** What the success callback leaves when it finds no booking: the store
    as it was, no mail, the "contact us" message and a redirect home. *)
Definition contact_us (d : db) (o : outcome) : Prop :=
  store o = d
  /\ sent o = []
  /\ flashed o
     = [("Booking confirmation failed. Please contact us to verify your appointment.",
         "error")]
  /\ reply o = redirect "/".

(** A session that remembers booking [id]. *)
Definition holding (id : Z) : session := {| pending_booking_id := Some id |}.

(** * Properties *)

(** ** Queries *)

Lemma first_query_filter_None {A} (cond : Z -> A -> bool) (table : gmap Z A) :
  first (query_filter cond table) = None
  <-> forall id row, table !! id = Some row -> cond id row = false.
Proof.
  unfold first, query_filter. rewrite head_None. split.
  - intros Hnil id row Hrow.
    destruct (cond id row) eqn:Hc; [|reflexivity].
    assert (Hin : In (id, row)
                    (List.filter (fun r => cond (fst r) (snd r))
                       (map_to_list table))).
    { apply filter_In. split; [|exact Hc].
      apply list_elem_of_In, elem_of_map_to_list, Hrow. }
    rewrite Hnil in Hin. destruct Hin.
  - intros Hall.
    destruct (List.filter _ (map_to_list table)) as [|[id row] rest] eqn:Hf;
      [reflexivity|].
    assert (Hin : In (id, row) ((id, row) :: rest)) by (left; reflexivity).
    rewrite <- Hf in Hin. apply filter_In in Hin as [Hin Hc].
    apply list_elem_of_In, elem_of_map_to_list in Hin.
    simpl in Hc. rewrite (Hall _ _ Hin) in Hc. discriminate.
Qed.

Lemma first_query_filter_Some {A} (cond : Z -> A -> bool) (table : gmap Z A) :
  (exists r, first (query_filter cond table) = Some r)
  <-> exists id row, table !! id = Some row /\ cond id row = true.
Proof.
  split.
  - intros [[id row] Hr]. exists id, row.
    unfold first, query_filter in Hr. apply head_Some_elem_of in Hr.
    apply list_elem_of_In, filter_In in Hr as [Hin Hc].
    split; [|exact Hc]. apply elem_of_map_to_list, list_elem_of_In, Hin.
  - intros (id & row & Hrow & Hc).
    destruct (first (query_filter cond table)) as [r|] eqn:Hf; [eauto|].
    apply first_query_filter_None with (id := id) (row := row) in Hf;
      [congruence | exact Hrow].
Qed.

(** A status counts as active when it is PENDING or CONFIRMED. *)
Lemma in_active (s : BookingStatus) :
  in_ s [PENDING; CONFIRMED] = true <-> s = PENDING \/ s = CONFIRMED.
Proof.
  unfold in_. rewrite bool_decide_eq_true. split.
  - intros H. apply elem_of_cons in H as [->|H]; [left; reflexivity|].
    apply elem_of_cons in H as [->|H]; [right; reflexivity|].
    inversion H.
  - intros [->| ->]; [left | right; left].
Qed.

(** The three-way test of [check_availability] holds exactly when one of
    its three conjunctions does. *)
Lemma intersects_spec (s e : Z) (b : Booking.t) :
  Booking.intersects s e b = true
  <-> (Booking.start b <= s /\ s < Booking.end_ b)
      \/ (Booking.start b < e /\ e <= Booking.end_ b)
      \/ (s <= Booking.start b /\ Booking.end_ b <= e).
Proof.
  unfold Booking.intersects.
  rewrite !orb_true_iff, !andb_true_iff, !Z.leb_le, !Z.ltb_lt, Z.gtb_lt,
    !Z.geb_le.
  tauto.
Qed.

Lemma check_availability_false (table : gmap Z Booking.t) (s e : Z)
    (id : Z) (b : Booking.t) :
  table !! id = Some b ->
  in_ (Booking.status b) [PENDING; CONFIRMED] = true ->
  Booking.intersects s e b = true ->
  Booking.check_availability table s e None = false.
Proof.
  intros Hrow Hact Hint. unfold Booking.check_availability.
  destruct (first _) as [r|] eqn:Hf; [reflexivity|].
  apply first_query_filter_None with (id := id) (row := b) in Hf;
    [|exact Hrow].
  simpl in Hf. rewrite Hact, Hint in Hf. discriminate.
Qed.

Lemma check_availability_true (table : gmap Z Booking.t) (s e : Z) :
  Booking.check_availability table s e None = true
  <-> forall id b, table !! id = Some b ->
        in_ (Booking.status b) [PENDING; CONFIRMED] = true ->
        Booking.intersects s e b = false.
Proof.
  unfold Booking.check_availability. split.
  - destruct (first _) as [r|] eqn:Hf; [discriminate|]. intros _ id b Hrow Hact.
    apply first_query_filter_None with (id := id) (row := b) in Hf;
      [|exact Hrow].
    simpl in Hf. rewrite Hact, andb_true_r in Hf. exact Hf.
  - intros Hall.
    destruct (first _) as [r|] eqn:Hf; [|reflexivity].
    assert (Hex : exists r, first (query_filter
              (fun id b => in_ (Booking.status b) [PENDING; CONFIRMED]
                 && Booking.intersects s e b
                 && Booking.not_excluded None id) table) = Some r) by eauto.
    apply first_query_filter_Some in Hex as (id & b & Hrow & Hc).
    apply andb_prop in Hc as [Hc _]. apply andb_prop in Hc as [Hact Hint].
    rewrite (Hall _ _ Hrow Hact) in Hint. discriminate.
Qed.

(** ** Overlap rule *)

(** C7.  Two active bookings A and B with A.start < B.end and
    B.start < A.end are flagged by the three-way intersection rule whichever
    of the two is the candidate: the rule holds of A's interval against B
    and of B's interval against A, and [check_availability] answers "not
    available" for A's interval on any table holding B and for B's interval
    on any table holding A. *)
Theorem overlap_flagged_both_ways (A B : Booking.t) :
  in_ (Booking.status A) [PENDING; CONFIRMED] = true ->
  in_ (Booking.status B) [PENDING; CONFIRMED] = true ->
  Booking.start A < Booking.end_ B ->
  Booking.start B < Booking.end_ A ->
  Booking.intersects (Booking.start A) (Booking.end_ A) B = true
  /\ Booking.intersects (Booking.start B) (Booking.end_ B) A = true
  /\ (forall table id, table !! id = Some B ->
        Booking.check_availability table (Booking.start A) (Booking.end_ A)
          None = false)
  /\ (forall table id, table !! id = Some A ->
        Booking.check_availability table (Booking.start B) (Booking.end_ B)
          None = false).
Proof.
  intros HA HB HAB HBA.
  assert (H1 : Booking.intersects (Booking.start A) (Booking.end_ A) B = true)
    by (apply intersects_spec; lia).
  assert (H2 : Booking.intersects (Booking.start B) (Booking.end_ B) A = true)
    by (apply intersects_spec; lia).
  repeat split; try assumption.
  - intros table id Hrow. eapply check_availability_false; eassumption.
  - intros table id Hrow. eapply check_availability_false; eassumption.
Qed.

(** ** Slot validator *)

(** C8.  Whatever bookings are stored, a start strictly earlier than
    now + 24 hours is rejected, and the reason is the lead-time one. *)
Theorem validate_start_too_soon (table : gmap Z Booking.t)
    (now data : datetime) :
  data < now + timedelta.hours 24 ->
  BookingForm.validate_start table now data
  = ValidationError "Booking must be at least 24 hours in advance.".
Proof.
  intros Hsoon. unfold BookingForm.validate_start.
  destruct (Z.ltb_spec data (now + timedelta.hours 24)) as [_|Hge];
    [reflexivity | lia].
Qed.

(** C9 (amended).  For a start that respects the lead time
    (start >= now + 24 hours): when its hour of day lies in [5, 18) and no
    active booking intersects [start, start + 2h), the validator accepts;
    when its hour of day is below 5 or at least 18 it rejects with the
    business-hours reason, whatever the stored bookings.  Only the hour of
    the start is looked at. *)
Theorem validate_start_business_hours (table : gmap Z Booking.t)
    (now data : datetime) :
  now + timedelta.hours 24 <= data ->
  (5 <= hour data < 18 ->
   (forall id b, table !! id = Some b ->
      in_ (Booking.status b) [PENDING; CONFIRMED] = true ->
      Booking.intersects data (data + timedelta.hours 2) b = false) ->
   BookingForm.validate_start table now data = returns)
  /\ (hour data < 5 \/ 18 <= hour data ->
      BookingForm.validate_start table now data
      = ValidationError "Bookings are only available between 5 AM and 6 PM.").
Proof.
  intros Hlead. unfold BookingForm.validate_start.
  destruct (Z.ltb_spec data (now + timedelta.hours 24)) as [Hlt|_]; [lia|].
  split.
  - intros [Hlo Hhi] Hfree.
    destruct (Z.ltb_spec (hour data) 5) as [?|_]; [lia|].
    rewrite Z.geb_leb.
    destruct (Z.leb_spec 18 (hour data)) as [?|_]; [lia|]. simpl.
    apply check_availability_true in Hfree. rewrite Hfree. reflexivity.
  - intros Hout. rewrite Z.geb_leb.
    destruct (Z.ltb_spec (hour data) 5) as [?|?]; [reflexivity|].
    destruct (Z.leb_spec 18 (hour data)) as [?|?]; [reflexivity | lia].
Qed.

(** ** Rate limiter *)

Lemma validate_email_spec (table : gmap Z Booking.t) (utcnow : datetime)
    (data : string) :
  BookingForm.validate_email table utcnow data
  = ValidationError "You can only book one service per 7-day period."
  <-> exists id b, table !! id = Some b
        /\ Booking.email b = data
        /\ (Booking.status b = PENDING \/ Booking.status b = CONFIRMED)
        /\ utcnow - timedelta.days 7 <= Booking.start b.
Proof.
  unfold BookingForm.validate_email. split.
  - destruct (first _) as [r|] eqn:Hf; [intros _ | discriminate].
    assert (Hex : exists r, first (query_filter
              (fun _ b => String.eqb (Booking.email b) data
                 && (Booking.start b >=? utcnow - timedelta.days 7)
                 && in_ (Booking.status b) [PENDING; CONFIRMED]) table)
              = Some r) by eauto.
    apply first_query_filter_Some in Hex as (id & b & Hrow & Hc).
    apply andb_prop in Hc as [Hc Hact]. apply andb_prop in Hc as [Hmail Hge].
    exists id, b. repeat split.
    + exact Hrow.
    + apply String.eqb_eq, Hmail.
    + apply in_active, Hact.
    + apply Z.geb_le, Hge.
  - intros (id & b & Hrow & Hmail & Hact & Hge).
    destruct (first _) as [r|] eqn:Hf; [reflexivity|].
    apply first_query_filter_None with (id := id) (row := b) in Hf;
      [|exact Hrow].
    simpl in Hf. apply in_active in Hact. apply String.eqb_eq in Hmail.
    apply Z.geb_le in Hge. rewrite Hmail, Hge, Hact in Hf. discriminate.
Qed.

Lemma validate_email_cases (table : gmap Z Booking.t) (utcnow : datetime)
    (data : string) :
  BookingForm.validate_email table utcnow data = returns
  \/ BookingForm.validate_email table utcnow data
     = ValidationError "You can only book one service per 7-day period.".
Proof.
  unfold BookingForm.validate_email. destruct (first _); [right | left];
    reflexivity.
Qed.

(** X3.  The account-level rule of [User.can_book] is the same test as the
    form's rate limiter: it answers True exactly when [validate_email]
    accepts the account's email. *)
Lemma can_book_validate_email (table : gmap Z Booking.t) (utcnow : datetime)
    (u : User.t) :
  User.can_book table utcnow u = true
  <-> BookingForm.validate_email table utcnow (User.email u) = returns.
Proof.
  unfold User.can_book, BookingForm.validate_email.
  destruct (first _); split; intros H; try reflexivity; discriminate.
Qed.

(** C3 (amended).  The rate limiter rejects a contact email exactly when
    that email has a PENDING or CONFIRMED booking whose start is not earlier
    than the moment of the check minus 7 days; there is no upper bound, so a
    booking that starts after the check counts as well.  Given such a
    booking starting at T, every check made before T + 7 days is rejected;
    and when no active booking of the email starts later than T, the check
    made at T + 7 days + 1 second passes. *)
Theorem validate_email_window (table : gmap Z Booking.t) (data : string) :
  (forall utcnow,
     BookingForm.validate_email table utcnow data
     = ValidationError "You can only book one service per 7-day period."
     <-> exists id b, table !! id = Some b
           /\ Booking.email b = data
           /\ (Booking.status b = PENDING \/ Booking.status b = CONFIRMED)
           /\ utcnow - timedelta.days 7 <= Booking.start b)
  /\ (forall id b utcnow,
        table !! id = Some b -> Booking.email b = data ->
        Booking.status b = PENDING \/ Booking.status b = CONFIRMED ->
        utcnow < Booking.start b + timedelta.days 7 ->
        BookingForm.validate_email table utcnow data
        = ValidationError "You can only book one service per 7-day period.")
  /\ (forall T,
        (forall id b, table !! id = Some b -> Booking.email b = data ->
           Booking.status b = PENDING \/ Booking.status b = CONFIRMED ->
           Booking.start b <= T) ->
        BookingForm.validate_email table
          (T + timedelta.days 7 + timedelta.seconds 1) data = returns).
Proof.
  split; [|split].
  - intros utcnow. apply validate_email_spec.
  - intros id b utcnow Hrow Hmail Hact Hlt. apply validate_email_spec.
    exists id, b. repeat split; try assumption. lia.
  - intros T Hlast.
    destruct (validate_email_cases table
                (T + timedelta.days 7 + timedelta.seconds 1) data)
      as [Hok|Hrej]; [exact Hok|].
    apply validate_email_spec in Hrej as (id & b & Hrow & Hmail & Hact & Hge).
    specialize (Hlast id b Hrow Hmail Hact).
    unfold timedelta.days, timedelta.seconds in Hge. lia.
Qed.

(** ** Form validation *)

Lemma choices_spec (d : db) (v : Z) :
  v ∈ BookingForm.choices d
  <-> exists p, products d !! v = Some p /\ Product.status p = ACTIVE.
Proof.
  unfold BookingForm.choices, query_filter.
  rewrite list_elem_of_In, in_map_iff. split.
  - intros ([id p] & Hfst & Hin). simpl in Hfst. subst id.
    apply filter_In in Hin as [Hin Hact]. simpl in Hact.
    apply bool_decide_eq_true in Hact.
    apply list_elem_of_In, elem_of_map_to_list in Hin. eauto.
  - intros (p & Hrow & Hact). exists (v, p). split; [reflexivity|].
    apply filter_In. split.
    + apply list_elem_of_In, elem_of_map_to_list, Hrow.
    + simpl. apply bool_decide_eq_true, Hact.
Qed.

Lemma product_id_errors_unlisted (d : db) (f : BookingForm.t) (id : Z) :
  BookingForm.product_id f = Some id ->
  (products d !! id = None
   \/ exists p, products d !! id = Some p /\ Product.status p <> ACTIVE) ->
  BookingForm.product_id_errors d f
  = [if id =? 0 then required else not_a_valid_choice].
Proof.
  intros Hid Hbad. unfold BookingForm.product_id_errors. rewrite Hid.
  destruct (id =? 0); [reflexivity|].
  rewrite bool_decide_eq_false_2; [reflexivity|].
  intros Hin. apply choices_spec in Hin as (p & Hrow & Hact).
  destruct Hbad as [Hnone | (q & Hq & Hst)]; congruence.
Qed.

Lemma errors_product_id (w : wtforms) (d : db) (now utcnow : datetime)
    (f : BookingForm.t) :
  BookingForm.product_id_errors d f <> [] ->
  In ("product_id", BookingForm.product_id_errors d f)
     (BookingForm.errors w d now utcnow f).
Proof.
  intros Hne. unfold BookingForm.errors. apply filter_In. split.
  - unfold BookingForm.field_errors. right. left. reflexivity.
  - simpl. rewrite bool_decide_eq_false_2; [reflexivity | exact Hne].
Qed.

Lemma validate_fields (w : wtforms) (d : db) (now utcnow : datetime)
    (f : BookingForm.t) :
  BookingForm.validate w d now utcnow f = true ->
  forall name es, In (name, es) (BookingForm.field_errors w d now utcnow f) ->
  es = [].
Proof.
  unfold BookingForm.validate, BookingForm.errors.
  rewrite bool_decide_eq_true. intros Hnil name es Hin.
  destruct (decide (es = [])) as [Heq|Hne]; [exact Heq|].
  assert (Hin' : In (name, es)
            (List.filter (fun fe => negb (bool_decide (snd fe = [])))
               (BookingForm.field_errors w d now utcnow f))).
  { apply filter_In. split; [exact Hin|]. simpl.
    rewrite bool_decide_eq_false_2; [reflexivity | exact Hne]. }
  rewrite Hnil in Hin'. destruct Hin'.
Qed.

Lemma validate_product_id (w : wtforms) (d : db) (now utcnow : datetime)
    (f : BookingForm.t) :
  BookingForm.validate w d now utcnow f = true ->
  exists id p, BookingForm.product_id f = Some id
    /\ products d !! id = Some p /\ Product.status p = ACTIVE.
Proof.
  intros Hv.
  assert (He : BookingForm.product_id_errors d f = []).
  { apply (validate_fields _ _ _ _ _ Hv "product_id").
    unfold BookingForm.field_errors. right. left. reflexivity. }
  unfold BookingForm.product_id_errors in He.
  destruct (BookingForm.product_id f) as [id|]; [|discriminate].
  destruct (id =? 0); [discriminate|].
  destruct (bool_decide (id ∈ BookingForm.choices d)) eqn:Hin;
    [|discriminate].
  apply bool_decide_eq_true, choices_spec in Hin as (p & Hrow & Hact).
  eauto.
Qed.

Lemma validate_start_data (w : wtforms) (d : db) (now utcnow : datetime)
    (f : BookingForm.t) :
  BookingForm.validate w d now utcnow f = true ->
  exists data, BookingForm.start f = Some data
    /\ BookingForm.validate_start (bookings d) now data = returns.
Proof.
  intros Hv.
  assert (He : BookingForm.start_errors d now f = []).
  { apply (validate_fields _ _ _ _ _ Hv "start").
    unfold BookingForm.field_errors. do 5 right. left. reflexivity. }
  unfold BookingForm.start_errors in He.
  destruct (BookingForm.start f) as [data|]; [|discriminate].
  exists data. split; [reflexivity|].
  destruct (BookingForm.validate_start (bookings d) now data);
    [reflexivity | discriminate].
Qed.

(** ** Reservation manager *)

(** C1.  A submitted booking whose product reference names no product, or a
    product that is not ACTIVE, is refused as an invalid selection and
    creates no booking: the selector offers the ACTIVE products only and
    validation of the submitted id against it fails on the product field,
    so the store and the session are left as they were, nothing is sent and
    the form is shown again with that error.  Past validation, the
    handler's own lookup answers 'Invalid service selected.' and stores
    nothing when no row is found. *)
Theorem booking_invalid_selection (e : env) (d : db) (s : session)
    (f : BookingForm.t) (id : Z) :
  BookingForm.product_id f = Some id ->
  (products d !! id = None
   \/ exists p, products d !! id = Some p /\ Product.status p <> ACTIVE) ->
  let errors := BookingForm.errors (lib e) d (now_ e) (utcnow_ e) f in
  booking e d s (POST f)
  = {| store := d; cookie := s; flashed := []; sent := [];
       reply := form_page errors |}
  /\ In ("product_id", [if id =? 0 then required else not_a_valid_choice])
        errors
  /\ (products d !! id = None ->
      forall shown,
        booking_submitted e d s f shown
        = {| store := d; cookie := s;
             flashed := [("Invalid service selected.", "error")];
             sent := []; reply := redirect "/booking" |}).
Proof.
  intros Hid Hbad errors.
  pose proof (product_id_errors_unlisted d f id Hid Hbad) as Herr.
  assert (Hin : In ("product_id",
                    [if id =? 0 then required else not_a_valid_choice])
                  errors).
  { rewrite <- Herr. apply errors_product_id. rewrite Herr. discriminate. }
  split; [|split].
  - unfold booking. fold errors.
    destruct (BookingForm.validate _ _ _ _ f) eqn:Hv; [|reflexivity].
    apply bool_decide_eq_true in Hv. fold errors in Hv.
    rewrite Hv in Hin. destruct Hin.
  - exact Hin.
  - intros Hnone shown. unfold booking_submitted.
    rewrite Hid. simpl. rewrite Hnone. reflexivity.
Qed.

Lemma booking_valid (e : env) (d : db) (s : session) (f : BookingForm.t) :
  BookingForm.validate (lib e) d (now_ e) (utcnow_ e) f = true ->
  booking e d s (POST f) = booking_submitted e d s f [].
Proof.
  intros Hv. unfold booking. rewrite Hv.
  apply bool_decide_eq_true in Hv. rewrite Hv. reflexivity.
Qed.

(** C5.  When a valid booking has been stored as PENDING and the checkout
    transaction cannot be created, the row is deleted again: afterwards the
    bookings table is the one before the request, no row sits under the key
    the booking had received, and the caller is told that payment is
    unavailable. *)
Theorem booking_compensating_delete (e : env) (d : db) (s : session)
    (f : BookingForm.t) (id : Z) (p : Product.t) :
  pk_fresh d ->
  BookingForm.validate (lib e) d (now_ e) (utcnow_ e) f = true ->
  BookingForm.product_id f = Some id ->
  products d !! id = Some p ->
  create_stripe_checkout_session (gateway e) p
    (callback_url e "/booking/success" (next_booking_id d))
    (callback_url e "/booking/cancel" (next_booking_id d)) = None ->
  let o := booking e d s (POST f) in
  bookings (store o) = bookings d
  /\ bookings (store o) !! next_booking_id d = None
  /\ products (store o) = products d
  /\ cookie o = s
  /\ flashed o
     = [("Payment processing is currently unavailable. Please try again later.",
         "error")]
  /\ reply o = form_page [].
Proof.
  intros Hfresh Hv Hid Hrow Hfail o. subst o.
  destruct (validate_start_data _ _ _ _ _ Hv) as (data & Hstart & _).
  rewrite (booking_valid _ _ _ _ Hv). unfold booking_submitted.
  rewrite Hid. simpl. rewrite Hrow. simpl. rewrite Hstart, Hfail. simpl.
  assert (Hdel : delete (next_booking_id d)
                   (<[next_booking_id d :=
                        Booking.mk (current_user e) id (BookingForm.name f)
                          (BookingForm.email f) (BookingForm.phone f) data
                          (data + timedelta.hours 2)
                          (Some (BookingForm.notes f)) None PENDING
                          (created_ e)]> (bookings d))
                 = bookings d).
  { rewrite delete_insert_eq. apply delete_id, Hfresh. }
  rewrite Hdel. repeat split; try reflexivity. exact Hfresh.
Qed.

(** ** Reservation resolver *)

Lemma Booking_query_get_Some (e : env) (d : db) (k : ident) (id : Z)
    (b : Booking.t) :
  Booking_query_get e d k = Some (id, b) -> bookings d !! id = Some b.
Proof.
  unfold Booking_query_get.
  destruct (match k with
            | from_args text => pk_of_arg e text
            | from_session n => Some n
            end) as [n|]; simpl; [|discriminate].
  destruct (bookings d !! n) as [b0|] eqn:Hn; simpl; [|discriminate].
  intros [= <- <-]. exact Hn.
Qed.

Lemma designated_Some (e : env) (d : db) (s : session) (args : callback_args)
    (id : Z) (b : Booking.t) :
  designated e d s args = Some (id, b) -> bookings d !! id = Some b.
Proof.
  unfold designated. destruct (ident_truthy _); [|discriminate].
  destruct (fst (requested_booking_id args s)) as [k|]; simpl;
    [|discriminate].
  apply Booking_query_get_Some.
Qed.

Lemma booking_success_designated (e : env) (d : db) (s : session)
    (args : callback_args) :
  booking_success e d s args
  = match designated e d s args with
    | Some (id, b) =>
        let b := confirmed b (default "completed" (payment_intent args)) in
        {| store :=
             with_bookings d (<[id := b]> (bookings d)) (next_booking_id d);
           cookie := snd (requested_booking_id args s);
           flashed :=
             [("Your booking has been confirmed! You will receive a confirmation email shortly.",
               "success")];
           sent := [booking_confirmation (Booking.email b) id;
                    booking_notification "crypticmobiledetailing@gmail.com"
                      id];
           reply := render_template "success.html" (with_booking id b) |}
    | None => confirmation_failed d (snd (requested_booking_id args s))
    end.
Proof.
  unfold booking_success, designated.
  destruct (requested_booking_id args s) as [k s']. simpl.
  destruct (ident_truthy k); [|reflexivity].
  destruct (k ≫= Booking_query_get e d) as [[id b]|]; reflexivity.
Qed.

Lemma booking_cancel_designated (e : env) (d : db) (s : session)
    (args : callback_args) :
  store (booking_cancel e d s args)
  = match designated e d s args with
    | Some (id, _) => db_delete d id
    | None => d
    end.
Proof.
  unfold booking_cancel, designated.
  destruct (requested_booking_id args s) as [k s']. simpl.
  destruct (ident_truthy k); [|reflexivity].
  destruct (k ≫= Booking_query_get e d) as [[id b]|]; reflexivity.
Qed.

Lemma no_url_id (args : callback_args) :
  booking_id args = None \/ booking_id args = Some "" ->
  truthy (booking_id args) = false.
Proof. intros [-> | ->]; reflexivity. Qed.

Lemma url_id (args : callback_args) (text : string) :
  booking_id args = Some text -> text <> "" ->
  truthy (booking_id args) = true.
Proof.
  intros -> Hne. simpl. apply String.eqb_neq in Hne. rewrite Hne. reflexivity.
Qed.

(** The success callback when the URL carries a non-empty id. *)
Lemma booking_success_url (e : env) (d : db) (s : session)
    (args : callback_args) (text : string) :
  booking_id args = Some text -> text <> "" ->
  booking_success e d s args
  = match pk_of_arg e text ≫= fun id => pair id <$> bookings d !! id with
    | Some (id, b) =>
        let b := confirmed b (default "completed" (payment_intent args)) in
        {| store :=
             with_bookings d (<[id := b]> (bookings d)) (next_booking_id d);
           cookie := s;
           flashed :=
             [("Your booking has been confirmed! You will receive a confirmation email shortly.",
               "success")];
           sent := [booking_confirmation (Booking.email b) id;
                    booking_notification "crypticmobiledetailing@gmail.com"
                      id];
           reply := render_template "success.html" (with_booking id b) |}
    | None => confirmation_failed d s
    end.
Proof.
  intros Harg Hne. unfold booking_success, requested_booking_id.
  rewrite (url_id args text Harg Hne), Harg. simpl.
  apply String.eqb_neq in Hne. rewrite Hne. simpl.
  unfold Booking_query_get.
  destruct (pk_of_arg e text) as [id|]; simpl; [|reflexivity].
  destruct (bookings d !! id) as [b|]; reflexivity.
Qed.

(** The success callback when the URL carries no id, or an empty one: the
    id is popped from the session. *)
Lemma booking_success_session (e : env) (d : db) (s : session)
    (args : callback_args) :
  booking_id args = None \/ booking_id args = Some "" ->
  booking_success e d s args
  = match pending_booking_id s with
    | Some id =>
        if id =? 0 then
          confirmation_failed d {| pending_booking_id := None |}
        else
          match bookings d !! id with
          | Some b =>
              let b :=
                confirmed b (default "completed" (payment_intent args)) in
              {| store :=
                   with_bookings d (<[id := b]> (bookings d))
                     (next_booking_id d);
                 cookie := {| pending_booking_id := None |};
                 flashed :=
                   [("Your booking has been confirmed! You will receive a confirmation email shortly.",
                     "success")];
                 sent := [booking_confirmation (Booking.email b) id;
                          booking_notification
                            "crypticmobiledetailing@gmail.com" id];
                 reply := render_template "success.html" (with_booking id b) |}
          | None => confirmation_failed d {| pending_booking_id := None |}
          end
    | None => confirmation_failed d {| pending_booking_id := None |}
    end.
Proof.
  intros Harg. unfold booking_success, requested_booking_id.
  rewrite (no_url_id args Harg). simpl.
  destruct (pending_booking_id s) as [id|]; simpl; [|reflexivity].
  destruct (id =? 0); simpl; [reflexivity|].
  unfold Booking_query_get. simpl.
  destruct (bookings d !! id) as [b|]; reflexivity.
Qed.

(** C4 (amended).  Success callback.  The booking it works on is the one
    whose key the store matches to the non-empty [booking_id] of the
    request or, when the request carries no [booking_id] or an empty one,
    the one stored under the non-zero id the session holds.  If that
    booking exists it becomes CONFIRMED and carries the payment reference,
    which is the [payment_intent] argument or the text "completed" when
    the argument is absent; no other row changes and both notifications
    go out.  Otherwise (the id matches no row, or there is no id at all)
    no booking or product row changes, nothing is sent and the answer is
    the "contact us" message.  The session is left as it was when the id
    came with the request; when it did not, the id the session held is
    removed, whether or not a booking was found. *)
Theorem booking_success_resolution (e : env) (d : db) (s : session)
    (args : callback_args) :
  let o := booking_success e d s args in
  (forall text id b,
     booking_id args = Some text -> text <> "" ->
     pk_of_arg e text = Some id -> bookings d !! id = Some b ->
     confirms d args id b o /\ cookie o = s)
  /\ (forall id b,
        booking_id args = None \/ booking_id args = Some "" ->
        pending_booking_id s = Some id -> id <> 0 ->
        bookings d !! id = Some b ->
        confirms d args id b o
        /\ cookie o = {| pending_booking_id := None |})
  /\ (forall text,
        booking_id args = Some text -> text <> "" ->
        (forall id, pk_of_arg e text = Some id -> bookings d !! id = None) ->
        contact_us d o /\ cookie o = s)
  /\ (booking_id args = None \/ booking_id args = Some "" ->
      (forall id, pending_booking_id s = Some id -> id <> 0 ->
         bookings d !! id = None) ->
      contact_us d o /\ cookie o = {| pending_booking_id := None |}).
Proof.
  intros o. subst o. split; [|split; [|split]].
  - intros text id b Harg Hne Hpk Hrow.
    rewrite (booking_success_url e d s args text Harg Hne), Hpk. simpl.
    rewrite Hrow. simpl. unfold confirms. simpl. repeat split.
    intros ->. reflexivity.
  - intros id b Harg Hs Hne Hrow.
    rewrite (booking_success_session e d s args Harg), Hs.
    destruct (Z.eqb_spec id 0) as [?|_]; [contradiction|].
    rewrite Hrow. unfold confirms. simpl. repeat split.
    intros ->. reflexivity.
  - intros text Harg Hne Hnone.
    rewrite (booking_success_url e d s args text Harg Hne).
    destruct (pk_of_arg e text) as [id|]; simpl;
      [|unfold contact_us; repeat split].
    rewrite (Hnone id eq_refl). unfold contact_us. repeat split.
  - intros Harg Hnone.
    rewrite (booking_success_session e d s args Harg).
    destruct (pending_booking_id s) as [id|];
      [|unfold contact_us; repeat split].
    destruct (Z.eqb_spec id 0) as [?|Hne];
      [unfold contact_us; repeat split|].
    rewrite (Hnone id eq_refl Hne). unfold contact_us. repeat split.
Qed.

(** C10.  The success callback reads the store, the request and the session
    only: two environments that differ in the payment processor (its key,
    its answers, what was actually paid), in the clocks or in the logged-in
    user give the same outcome; and when the request carries a booking id,
    the session is not read either.  Hence whoever presents the id of a
    stored booking gets that booking CONFIRMED, paid or not. *)
Theorem booking_success_ignores_gateway (e1 e2 : env) (d : db) (s : session)
    (args : callback_args) :
  (forall text, pk_of_arg e1 text = pk_of_arg e2 text) ->
  booking_success e1 d s args = booking_success e2 d s args
  /\ (forall s', truthy (booking_id args) = true ->
        let o := booking_success e1 d s args in
        let o' := booking_success e2 d s' args in
        store o = store o' /\ flashed o = flashed o' /\ sent o = sent o'
        /\ reply o = reply o' /\ cookie o = s /\ cookie o' = s')
  /\ (forall text id b,
        booking_id args = Some text -> text <> "" ->
        pk_of_arg e1 text = Some id -> bookings d !! id = Some b ->
        Booking.status <$> bookings (store (booking_success e2 d s args)) !! id
        = Some CONFIRMED).
Proof.
  intros Hpk.
  assert (Hget : forall k, Booking_query_get e1 d k = Booking_query_get e2 d k).
  { intros [text|n]; unfold Booking_query_get; [rewrite Hpk|]; reflexivity. }
  assert (Heq : forall s0,
            booking_success e1 d s0 args = booking_success e2 d s0 args).
  { intros s0. unfold booking_success.
    destruct (requested_booking_id args s0) as [k s'].
    destruct (ident_truthy k); [|reflexivity].
    destruct k as [k|]; simpl; [rewrite Hget|]; reflexivity. }
  split; [apply Heq|]. split.
  - intros s' Harg o o'. subst o o'. rewrite <- (Heq s').
    unfold booking_success, requested_booking_id. rewrite Harg. simpl.
    destruct (ident_truthy _); [|repeat split].
    destruct (_ ≫= Booking_query_get e1 d) as [[id b]|]; repeat split.
  - intros text id b Harg Hne Hid Hrow. rewrite <- Heq.
    unfold booking_success, requested_booking_id, truthy. rewrite Harg.
    assert (Hnb : String.eqb text "" = false) by (apply String.eqb_neq, Hne).
    rewrite Hnb. simpl. rewrite Hnb. simpl.
    unfold Booking_query_get. rewrite Hid. simpl. rewrite Hrow. simpl.
    rewrite lookup_insert_eq. reflexivity.
Qed.

(** ** State machine of a booking row *)

Lemma row_change_insert_fresh (table : gmap Z Booking.t) (k id : Z)
    (b : Booking.t) :
  table !! k = None -> Booking.status b = PENDING ->
  row_change (table !! id) (<[k := b]> table !! id).
Proof.
  intros Hfresh Hst. destruct (decide (k = id)) as [->|Hne].
  - rewrite lookup_insert_eq, Hfresh. apply row_created, Hst.
  - rewrite lookup_insert_ne by exact Hne. apply row_kept.
Qed.

Lemma row_change_delete (table : gmap Z Booking.t) (k id : Z) :
  row_change (table !! id) (delete k table !! id).
Proof.
  destruct (decide (k = id)) as [->|Hne].
  - rewrite lookup_delete_eq. destruct (table !! id) as [b|].
    + apply row_deleted.
    + apply row_kept.
  - rewrite lookup_delete_ne by exact Hne. apply row_kept.
Qed.

Lemma booking_row_change (e : env) (d : db) (s : session) (r : request)
    (id : Z) :
  pk_fresh d ->
  row_change (bookings d !! id) (bookings (store (booking e d s r)) !! id).
Proof.
  intros Hfresh. destruct r as [|f]; [apply row_kept|].
  unfold booking.
  destruct (BookingForm.validate _ _ _ _ f); [|apply row_kept].
  unfold booking_submitted.
  destruct (BookingForm.product_id f ≫= _) as [[pid p]|]; [|apply row_kept].
  destruct (BookingForm.start f) as [data|]; [|apply row_kept].
  simpl. destruct (create_stripe_checkout_session _ _ _ _); simpl.
  - apply row_change_insert_fresh; [exact Hfresh | reflexivity].
  - rewrite delete_insert_eq, delete_id by exact Hfresh. apply row_kept.
Qed.

Lemma core_step_row_change (d d' : db) (id : Z) :
  core_step d d' -> row_change (bookings d !! id) (bookings d' !! id).
Proof.
  intros Hstep.
  destruct Hstep as [e d s r Hfresh|e d s args|e d s args].
  - apply booking_row_change, Hfresh.
  - rewrite booking_success_designated.
    destruct (designated e d s args) as [[k b]|] eqn:Hd; [|apply row_kept].
    apply designated_Some in Hd. simpl.
    destruct (decide (k = id)) as [->|Hne].
    + rewrite lookup_insert_eq, Hd. apply row_confirmed.
    + rewrite lookup_insert_ne by exact Hne. apply row_kept.
  - rewrite booking_cancel_designated.
    destruct (designated e d s args) as [[k b]|]; [|apply row_kept].
    simpl. apply row_change_delete.
Qed.

Lemma store_ok_fresh (d : db) : store_ok d -> pk_fresh d.
Proof.
  intros Hok. unfold pk_fresh.
  destruct (bookings d !! next_booking_id d) as [b|] eqn:Hrow; [|reflexivity].
  assert (Hlt : next_booking_id d < next_booking_id d) by (apply Hok; eauto).
  lia.
Qed.

(** The keys stay below the counter along the requests the core serves. *)
Lemma core_step_store_ok (d d' : db) :
  store_ok d -> core_step d d' -> store_ok d'.
Proof.
  intros Hok Hstep.
  destruct Hstep as [e d s r Hfresh|e d s args|e d s args].
  - destruct r as [|f]; [exact Hok|]. unfold booking.
    destruct (BookingForm.validate _ _ _ _ f); [|exact Hok].
    unfold booking_submitted.
    destruct (BookingForm.product_id f ≫= _) as [[pid p]|]; [|exact Hok].
    destruct (BookingForm.start f) as [data|]; [|exact Hok].
    simpl. destruct (create_stripe_checkout_session _ _ _ _);
      intros id Hid; simpl in Hid |- *.
    + destruct (decide (next_booking_id d = id)) as [<-|Hne]; [lia|].
      rewrite lookup_insert_ne in Hid by exact Hne.
      specialize (Hok id Hid). lia.
    + rewrite delete_insert_eq, delete_id in Hid by exact Hfresh.
      specialize (Hok id Hid). lia.
  - rewrite booking_success_designated.
    destruct (designated e d s args) as [[k b]|] eqn:Hd; [|exact Hok].
    apply designated_Some in Hd. intros id Hid. simpl in Hid |- *.
    apply Hok. destruct (decide (k = id)) as [<-|Hne].
    + rewrite Hd. eauto.
    + rewrite lookup_insert_ne in Hid by exact Hne. exact Hid.
  - rewrite booking_cancel_designated.
    destruct (designated e d s args) as [[k b]|]; [|exact Hok].
    intros id Hid. simpl in Hid |- *. apply Hok.
    destruct (decide (k = id)) as [<-|Hne].
    + rewrite lookup_delete_eq in Hid. destruct Hid as [? Hid]. discriminate.
    + rewrite lookup_delete_ne in Hid by exact Hne. exact Hid.
Qed.

(** The bookings table after the booking route: as before, or with one
    PENDING row more under the next key. *)
Lemma booking_table (e : env) (d : db) (s : session) (r : request) :
  pk_fresh d ->
  products (store (booking e d s r)) = products d
  /\ (bookings (store (booking e d s r)) = bookings d
      \/ exists b,
           Booking.status b = PENDING
           /\ bookings (store (booking e d s r))
              = <[next_booking_id d := b]> (bookings d)).
Proof.
  intros Hfresh. destruct r as [|f]; [split; [|left]; reflexivity|].
  unfold booking.
  destruct (BookingForm.validate _ _ _ _ f); [|split; [|left]; reflexivity].
  unfold booking_submitted.
  destruct (BookingForm.product_id f ≫= _) as [[pid p]|];
    [|split; [|left]; reflexivity].
  destruct (BookingForm.start f) as [data|]; [|split; [|left]; reflexivity].
  simpl. destruct (create_stripe_checkout_session _ _ _ _); simpl.
  - split; [reflexivity|]. right. eexists. split; [|reflexivity]. reflexivity.
  - split; [reflexivity|]. left.
    rewrite delete_insert_eq, delete_id by exact Hfresh. reflexivity.
Qed.

(** The cancel callback when the URL carries a non-empty id. *)
Lemma booking_cancel_url (e : env) (d : db) (s : session)
    (args : callback_args) (text : string) :
  booking_id args = Some text -> text <> "" ->
  products (store (booking_cancel e d s args)) = products d
  /\ bookings (store (booking_cancel e d s args))
     = match pk_of_arg e text with
       | Some id => delete id (bookings d)
       | None => bookings d
       end.
Proof.
  intros Harg Hne. unfold booking_cancel, requested_booking_id.
  rewrite (url_id args text Harg Hne), Harg. simpl.
  apply String.eqb_neq in Hne. rewrite Hne. simpl.
  unfold Booking_query_get.
  destruct (pk_of_arg e text) as [id|]; simpl; [|split; reflexivity].
  destruct (bookings d !! id) as [b|] eqn:Hrow; simpl.
  - split; reflexivity.
  - split; [reflexivity|]. symmetry. apply delete_id, Hrow.
Qed.

(** The cancel callback when the URL carries no id, or an empty one. *)
Lemma booking_cancel_session (e : env) (d : db) (s : session)
    (args : callback_args) :
  booking_id args = None \/ booking_id args = Some "" ->
  products (store (booking_cancel e d s args)) = products d
  /\ bookings (store (booking_cancel e d s args))
     = match pending_booking_id s with
       | Some id => if id =? 0 then bookings d else delete id (bookings d)
       | None => bookings d
       end.
Proof.
  intros Harg. unfold booking_cancel, requested_booking_id.
  rewrite (no_url_id args Harg). simpl.
  destruct (pending_booking_id s) as [id|]; simpl; [|split; reflexivity].
  destruct (id =? 0); simpl; [split; reflexivity|].
  unfold Booking_query_get. simpl.
  destruct (bookings d !! id) as [b|] eqn:Hrow; simpl.
  - split; reflexivity.
  - split; [reflexivity|]. symmetry. apply delete_id, Hrow.
Qed.

(** C2 (amended).  The changes the core makes to the bookings table are
    these and no others.  The booking route leaves it as it was or adds
    one PENDING row under the next key (a row added and then removed by
    the compensating delete leaves it as it was).  The success callback
    changes at most the row it resolves, the one whose key the store
    matches to the request's non-empty [booking_id] or else the one under
    the non-zero id held in the session: that row becomes CONFIRMED with a
    payment reference, whatever its status was.  The cancel callback
    deletes that same row, whatever its status was, and touches no other.
    Neither callback reads the status.  A row the core has written is
    PENDING or CONFIRMED, never COMPLETED or CANCELLED. *)
Theorem core_transitions :
  (forall e d s r, pk_fresh d ->
     products (store (booking e d s r)) = products d
     /\ (bookings (store (booking e d s r)) = bookings d
         \/ exists b,
              Booking.status b = PENDING
              /\ bookings (store (booking e d s r))
                 = <[next_booking_id d := b]> (bookings d)))
  /\ (forall e d s args text,
        booking_id args = Some text -> text <> "" ->
        products (store (booking_success e d s args)) = products d
        /\ bookings (store (booking_success e d s args))
           = match pk_of_arg e text with
             | Some id =>
                 match bookings d !! id with
                 | Some b =>
                     <[id := confirmed b
                               (default "completed" (payment_intent args))]>
                       (bookings d)
                 | None => bookings d
                 end
             | None => bookings d
             end)
  /\ (forall e d s args,
        booking_id args = None \/ booking_id args = Some "" ->
        products (store (booking_success e d s args)) = products d
        /\ bookings (store (booking_success e d s args))
           = match pending_booking_id s with
             | Some id =>
                 if id =? 0 then bookings d
                 else
                   match bookings d !! id with
                   | Some b =>
                       <[id := confirmed b
                                 (default "completed" (payment_intent args))]>
                         (bookings d)
                   | None => bookings d
                   end
             | None => bookings d
             end)
  /\ (forall e d s args text,
        booking_id args = Some text -> text <> "" ->
        products (store (booking_cancel e d s args)) = products d
        /\ bookings (store (booking_cancel e d s args))
           = match pk_of_arg e text with
             | Some id => delete id (bookings d)
             | None => bookings d
             end)
  /\ (forall e d s args,
        booking_id args = None \/ booking_id args = Some "" ->
        products (store (booking_cancel e d s args)) = products d
        /\ bookings (store (booking_cancel e d s args))
           = match pending_booking_id s with
             | Some id =>
                 if id =? 0 then bookings d else delete id (bookings d)
             | None => bookings d
             end)
  /\ (forall b payment,
        Booking.status (confirmed b payment) = CONFIRMED
        /\ Booking.stripe_payment_id (confirmed b payment) = Some payment
        /\ Booking.start (confirmed b payment) = Booking.start b
        /\ Booking.end_ (confirmed b payment) = Booking.end_ b
        /\ Booking.email (confirmed b payment) = Booking.email b
        /\ Booking.product_id (confirmed b payment) = Booking.product_id b)
  /\ (forall d d', core_step d d' ->
        forall id b', bookings d' !! id = Some b' ->
        bookings d !! id <> Some b' ->
        Booking.status b' = PENDING \/ Booking.status b' = CONFIRMED).
Proof.
  split; [|split; [|split; [|split; [|split; [|split]]]]].
  - intros e d s r Hfresh. apply booking_table, Hfresh.
  - intros e d s args text Harg Hne.
    rewrite (booking_success_url e d s args text Harg Hne).
    destruct (pk_of_arg e text) as [id|]; simpl; [|split; reflexivity].
    destruct (bookings d !! id) as [b|]; split; reflexivity.
  - intros e d s args Harg.
    rewrite (booking_success_session e d s args Harg).
    destruct (pending_booking_id s) as [id|]; [|split; reflexivity].
    destruct (id =? 0); [split; reflexivity|].
    destruct (bookings d !! id) as [b|]; split; reflexivity.
  - intros e d s args text Harg Hne.
    apply (booking_cancel_url e d s args text Harg Hne).
  - intros e d s args Harg. apply (booking_cancel_session e d s args Harg).
  - intros b payment. repeat split.
  - intros d d' Hstep id b' Hafter Hbefore.
    pose proof (core_step_row_change d d' id Hstep) as Hch.
    rewrite Hafter in Hch. inversion Hch as [o Ho|b Hst|b payment|b]; subst.
    + congruence.
    + left. exact Hst.
    + right. reflexivity.
Qed.

(** ** Checkout amount *)

(** C6.  The seeded product at $75.00, which has no stored price id, is
    sent as a one-off price in "usd" with unit amount 7500.  A product at
    $19.99 is sent with unit amount 1998, one less than its price in
    cents: the product of the binary double nearest to 19.99 with 100 is
    just below 1999 and [int] truncates. *)
Theorem unit_amount_truncated :
  build_line_items detail
  = Some [price_data "usd" "Premium Mobile Detail"
            (Some "Complete detailing service.") 7500 1]
  /\ Product.price wax = 1999
  /\ Product.stripe_price_id wax = None
  /\ build_line_items wax = Some [price_data "usd" "Spray Wax" None 1998 1].
Proof. vm_compute. repeat split. Qed.

(** Without a stored price id the line item is always a one-off price in
    "usd" for quantity 1. *)
Lemma build_line_items_usd (p : Product.t) (items : list line_item) :
  truthy (Product.stripe_price_id p) = false ->
  build_line_items p = Some items ->
  exists cents,
    unit_amount_of (Product.price p) = Some cents
    /\ items = [price_data "usd" (Product.name p) (Product.description p)
                  cents 1].
Proof.
  intros Hnone. unfold build_line_items. rewrite Hnone.
  destruct (unit_amount_of (Product.price p)) as [cents|]; [|discriminate].
  intros [= <-]. eauto.
Qed.

(** ** The statements at sample inputs *)

Lemma overlap_flagged_both_ways_witness :
  Booking.start (ann PENDING slot) < Booking.end_ (bob CONFIRMED (at_ 100 11 0))
  /\ Booking.start (bob CONFIRMED (at_ 100 11 0)) < Booking.end_ (ann PENDING slot)
  /\ Booking.intersects slot (at_ 100 12 0) (bob CONFIRMED (at_ 100 11 0)) = true
  /\ Booking.intersects (at_ 100 11 0) (at_ 100 13 0) (ann PENDING slot) = true.
Proof.
  assert (H1 : Booking.start (ann PENDING slot)
               < Booking.end_ (bob CONFIRMED (at_ 100 11 0))) by reflexivity.
  assert (H2 : Booking.start (bob CONFIRMED (at_ 100 11 0))
               < Booking.end_ (ann PENDING slot)) by reflexivity.
  pose proof (overlap_flagged_both_ways (ann PENDING slot)
                (bob CONFIRMED (at_ 100 11 0)) eq_refl eq_refl H1 H2)
    as (H3 & H4 & _).
  exact (conj H1 (conj H2 (conj H3 H4))).
Defined.

Lemma validate_start_too_soon_witness :
  at_ 99 9 0 < at_ 98 9 30 + timedelta.hours 24
  /\ BookingForm.validate_start (bookings (one_booking CONFIRMED))
       (at_ 98 9 30) (at_ 99 9 0)
     = ValidationError "Booking must be at least 24 hours in advance.".
Proof.
  assert (H1 : at_ 99 9 0 < at_ 98 9 30 + timedelta.hours 24) by reflexivity.
  exact (conj H1
           (validate_start_too_soon (bookings (one_booking CONFIRMED))
              (at_ 98 9 30) (at_ 99 9 0) H1)).
Defined.

Lemma validate_start_business_hours_witness :
  at_ 98 9 0 + timedelta.hours 24 <= slot
  /\ 5 <= hour slot < 18
  /\ BookingForm.validate_start ∅ (at_ 98 9 0) slot = returns
  /\ 18 <= hour (at_ 100 18 0)
  /\ BookingForm.validate_start ∅ (at_ 98 9 0) (at_ 100 18 0)
     = ValidationError "Bookings are only available between 5 AM and 6 PM.".
Proof.
  assert (H1 : at_ 98 9 0 + timedelta.hours 24 <= slot) by discriminate.
  assert (H2 : 5 <= hour slot < 18) by (split; [discriminate | reflexivity]).
  assert (H3 : at_ 98 9 0 + timedelta.hours 24 <= at_ 100 18 0)
    by discriminate.
  assert (H4 : 18 <= hour (at_ 100 18 0)) by discriminate.
  destruct (validate_start_business_hours ∅ (at_ 98 9 0) slot H1) as [Hin _].
  destruct (validate_start_business_hours ∅ (at_ 98 9 0) (at_ 100 18 0) H3)
    as [_ Hout].
  assert (H5 : BookingForm.validate_start ∅ (at_ 98 9 0) slot = returns).
  { apply Hin; [exact H2|]. intros id b Hrow. rewrite lookup_empty in Hrow.
    discriminate. }
  assert (H6 : BookingForm.validate_start ∅ (at_ 98 9 0) (at_ 100 18 0)
               = ValidationError
                   "Bookings are only available between 5 AM and 6 PM.").
  { apply Hout. right. exact H4. }
  exact (conj H1 (conj H2 (conj H5 (conj H4 H6)))).
Defined.

(** C9, as first stated: a start at 10:00 with no booking stored is still
    rejected when it is less than 24 hours away. *)
Lemma business_hours_not_sufficient :
  5 <= hour slot < 18
  /\ Booking.check_availability ∅ slot (slot + timedelta.hours 2) None = true
  /\ BookingForm.validate_start ∅ (at_ 100 9 0) slot
     = ValidationError "Booking must be at least 24 hours in advance.".
Proof. vm_compute. repeat split; discriminate. Qed.

(** Only the hour of the start is checked: 17:30 is accepted although the
    service then ends at 19:30. *)
Example late_start_accepted :
  BookingForm.validate_start ∅ (at_ 98 9 0) (at_ 100 17 30) = returns
  /\ hour (at_ 100 17 30 + timedelta.hours 2) = 19.
Proof. vm_compute. split; reflexivity. Qed.

(** C3, as first stated: a booking that starts two days after the check is
    not within the 7 days before the check, yet the limiter rejects. *)
Lemma rate_limit_counts_future_booking :
  BookingForm.validate_email (bookings (one_booking PENDING)) (at_ 98 13 0)
    "ann@example.com"
  = ValidationError "You can only book one service per 7-day period."
  /\ ~ (exists id b,
          bookings (one_booking PENDING) !! id = Some b
          /\ Booking.email b = "ann@example.com"
          /\ (Booking.status b = PENDING \/ Booking.status b = CONFIRMED)
          /\ at_ 98 13 0 - timedelta.days 7 <= Booking.start b <= at_ 98 13 0).
Proof.
  split; [vm_compute; reflexivity|].
  intros (id & b & Hrow & _ & _ & _ & Hle).
  unfold one_booking, shop in Hrow. simpl in Hrow.
  destruct (decide (id = 1)) as [->|Hne].
  - rewrite lookup_insert_eq in Hrow. injection Hrow as <-.
    apply Hle. reflexivity.
  - rewrite lookup_insert_ne, lookup_empty in Hrow by congruence.
    discriminate.
Qed.

Lemma validate_email_window_witness :
  bookings (one_booking CONFIRMED) !! 1 = Some (ann CONFIRMED slot)
  /\ slot + timedelta.days 6 < Booking.start (ann CONFIRMED slot) + timedelta.days 7
  /\ BookingForm.validate_email (bookings (one_booking CONFIRMED))
       (slot + timedelta.days 6) "ann@example.com"
     = ValidationError "You can only book one service per 7-day period."
  /\ BookingForm.validate_email (bookings (one_booking CONFIRMED))
       (slot + timedelta.days 7 + timedelta.seconds 1) "ann@example.com"
     = returns.
Proof.
  assert (H1 : bookings (one_booking CONFIRMED) !! 1
               = Some (ann CONFIRMED slot)) by reflexivity.
  assert (H2 : slot + timedelta.days 6
               < Booking.start (ann CONFIRMED slot) + timedelta.days 7)
    by reflexivity.
  destruct (validate_email_window (bookings (one_booking CONFIRMED))
              "ann@example.com") as (_ & Hrej & Hacc).
  assert (H3 : BookingForm.validate_email (bookings (one_booking CONFIRMED))
                 (slot + timedelta.days 6) "ann@example.com"
               = ValidationError
                   "You can only book one service per 7-day period.").
  { apply (Hrej 1 (ann CONFIRMED slot)); [exact H1 | reflexivity | | exact H2].
    right. reflexivity. }
  assert (H4 : BookingForm.validate_email (bookings (one_booking CONFIRMED))
                 (slot + timedelta.days 7 + timedelta.seconds 1)
                 "ann@example.com" = returns).
  { apply Hacc. intros id b Hrow _ _.
    unfold one_booking, shop in Hrow. simpl in Hrow.
    destruct (decide (id = 1)) as [->|Hne].
    - rewrite lookup_insert_eq in Hrow. injection Hrow as <-.
      discriminate.
    - rewrite lookup_insert_ne, lookup_empty in Hrow by congruence.
      discriminate. }
  exact (conj H1 (conj H2 (conj H3 H4))).
Defined.

Lemma booking_invalid_selection_witness :
  BookingForm.product_id (order 2 slot) = Some 2
  /\ products empty_shop !! 2 = Some coating
  /\ Product.status coating <> ACTIVE
  /\ booking today empty_shop no_session (POST (order 2 slot))
     = {| store := empty_shop; cookie := no_session; flashed := [];
          sent := [];
          reply := form_page [("product_id", [not_a_valid_choice])] |}.
Proof.
  assert (H1 : BookingForm.product_id (order 2 slot) = Some 2)
    by reflexivity.
  assert (H2 : products empty_shop !! 2 = Some coating) by reflexivity.
  assert (H3 : Product.status coating <> ACTIVE) by discriminate.
  pose proof (booking_invalid_selection today empty_shop no_session
                (order 2 slot) 2 H1
                (or_intror (ex_intro _ coating (conj H2 H3)))) as (H4 & _).
  exact (conj H1 (conj H2 (conj H3 H4))).
Defined.

Lemma booking_compensating_delete_witness :
  pk_fresh empty_shop
  /\ BookingForm.validate (lib today_down) empty_shop (now_ today_down)
       (utcnow_ today_down) (order 1 slot) = true
  /\ products empty_shop !! 1 = Some detail
  /\ create_stripe_checkout_session (gateway today_down) detail
       (callback_url today_down "/booking/success" 1)
       (callback_url today_down "/booking/cancel" 1) = None
  /\ bookings (store (booking today_down empty_shop no_session
                        (POST (order 1 slot)))) = ∅
  /\ flashed (booking today_down empty_shop no_session (POST (order 1 slot)))
     = [("Payment processing is currently unavailable. Please try again later.",
         "error")].
Proof.
  assert (H1 : pk_fresh empty_shop) by reflexivity.
  assert (H2 : BookingForm.validate (lib today_down) empty_shop
                 (now_ today_down) (utcnow_ today_down) (order 1 slot) = true)
    by (vm_compute; reflexivity).
  assert (H3 : products empty_shop !! 1 = Some detail) by reflexivity.
  assert (H4 : create_stripe_checkout_session (gateway today_down) detail
                 (callback_url today_down "/booking/success" 1)
                 (callback_url today_down "/booking/cancel" 1) = None)
    by (vm_compute; reflexivity).
  pose proof (booking_compensating_delete today_down empty_shop no_session
                (order 1 slot) 1 detail H1 H2 eq_refl H3 H4)
    as (H5 & _ & _ & _ & H6 & _).
  exact (conj H1 (conj H2 (conj H3 (conj H4 (conj H5 H6))))).
Defined.

Lemma booking_success_resolution_witness :
  pending_booking_id (holding 1) = Some 1
  /\ bookings (one_booking PENDING) !! 1 = Some (ann PENDING slot)
  /\ confirms (one_booking PENDING) (no_args None) 1 (ann PENDING slot)
       (booking_success today (one_booking PENDING) (holding 1)
          (no_args None))
  /\ pk_of_arg today "1" = Some 1
  /\ confirms (one_booking PENDING) (by_id "1") 1 (ann PENDING slot)
       (booking_success today (one_booking PENDING) no_session (by_id "1"))
  /\ pk_of_arg today "7" = Some 7
  /\ bookings (one_booking PENDING) !! 7 = None
  /\ contact_us (one_booking PENDING)
       (booking_success today (one_booking PENDING) no_session (by_id "7"))
  /\ contact_us (one_booking PENDING)
       (booking_success today (one_booking PENDING) (holding 7)
          (no_args None)).
Proof.
  assert (H1 : pending_booking_id (holding 1) = Some 1) by reflexivity.
  assert (H2 : bookings (one_booking PENDING) !! 1 = Some (ann PENDING slot))
    by reflexivity.
  assert (H3 : pk_of_arg today "1" = Some 1) by reflexivity.
  assert (H4 : pk_of_arg today "7" = Some 7) by reflexivity.
  assert (H5 : bookings (one_booking PENDING) !! 7 = None) by reflexivity.
  assert (Hno : booking_id (no_args None) = None
                \/ booking_id (no_args None) = Some "")
    by (left; reflexivity).
  assert (Hne1 : "1" <> "") by discriminate.
  assert (Hne7 : "7" <> "") by discriminate.
  assert (Hz : (1 : Z) <> 0) by discriminate.
  destruct (booking_success_resolution today (one_booking PENDING)
              (holding 1) (no_args None)) as (_ & Hsession & _).
  destruct (booking_success_resolution today (one_booking PENDING)
              no_session (by_id "1")) as (Hurl & _).
  destruct (booking_success_resolution today (one_booking PENDING)
              no_session (by_id "7")) as (_ & _ & Hmissing & _).
  destruct (booking_success_resolution today (one_booking PENDING)
              (holding 7) (no_args None)) as (_ & _ & _ & Hstale).
  destruct (Hsession 1 (ann PENDING slot) Hno H1 Hz H2) as [H6 _].
  destruct (Hurl "1" 1 (ann PENDING slot) eq_refl Hne1 H3 H2) as [H7 _].
  assert (H8 : contact_us (one_booking PENDING)
                 (booking_success today (one_booking PENDING) no_session
                    (by_id "7"))).
  { apply (Hmissing "7" eq_refl Hne7). intros id [= <-]. exact H5. }
  assert (H9 : contact_us (one_booking PENDING)
                 (booking_success today (one_booking PENDING) (holding 7)
                    (no_args None))).
  { apply (Hstale Hno). intros id [= <-] _. exact H5. }
  exact (conj H1 (conj H2 (conj H6 (conj H3 (conj H7 (conj H4 (conj H5
           (conj H8 H9)))))))).
Defined.

(** C4, as first stated: the request carries no id and the session holds
    one that matches no booking; the store is left alone, but the id is
    removed from the session. *)
Lemma success_consumes_session_id :
  booking_id (no_args None) = None
  /\ bookings (one_booking PENDING) !! 7 = None
  /\ store (booking_success today (one_booking PENDING) (holding 7)
              (no_args None)) = one_booking PENDING
  /\ cookie (booking_success today (one_booking PENDING) (holding 7)
               (no_args None))
     = {| pending_booking_id := None |}
  /\ cookie (booking_success today (one_booking PENDING) (holding 7)
               (no_args None))
     <> holding 7.
Proof.
  split; [reflexivity|]. split; [reflexivity|]. split; [reflexivity|].
  split; [reflexivity|]. discriminate.
Qed.

Lemma booking_success_ignores_gateway_witness :
  (forall text, pk_of_arg today text = pk_of_arg today_down text)
  /\ booking_success today (one_booking PENDING) no_session (by_id "1")
     = booking_success today_down (one_booking PENDING) no_session (by_id "1")
  /\ Booking.status
       <$> bookings (store (booking_success today_down (one_booking PENDING)
                              no_session (by_id "1"))) !! 1
     = Some CONFIRMED.
Proof.
  assert (H1 : forall text, pk_of_arg today text = pk_of_arg today_down text)
    by (intros text; reflexivity).
  destruct (booking_success_ignores_gateway today today_down
              (one_booking PENDING) no_session (by_id "1") H1)
    as (H2 & _ & H3).
  assert (Hne : "1" <> "") by discriminate.
  exact (conj H1 (conj H2
           (H3 "1" 1 (ann PENDING slot) eq_refl Hne eq_refl eq_refl))).
Defined.

Lemma core_transitions_witness :
  pk_of_arg today "1" = Some 1
  /\ bookings (one_booking COMPLETED) !! 1 = Some (ann COMPLETED slot)
  /\ bookings (store (booking_cancel today (one_booking COMPLETED) no_session
                        (by_id "1")))
     = delete 1 (bookings (one_booking COMPLETED))
  /\ bookings (store (booking_success today (one_booking COMPLETED)
                        (holding 1) (no_args None)))
     = <[1 := confirmed (ann COMPLETED slot) "completed"]>
         (bookings (one_booking COMPLETED))
  /\ pk_fresh (one_booking COMPLETED)
  /\ products (store (booking today (one_booking COMPLETED) no_session GET))
     = products (one_booking COMPLETED).
Proof.
  assert (H1 : pk_of_arg today "1" = Some 1) by reflexivity.
  assert (H2 : bookings (one_booking COMPLETED) !! 1
               = Some (ann COMPLETED slot)) by reflexivity.
  assert (Hne : "1" <> "") by discriminate.
  assert (Hno : booking_id (no_args None) = None
                \/ booking_id (no_args None) = Some "")
    by (left; reflexivity).
  assert (Hfresh : pk_fresh (one_booking COMPLETED)) by reflexivity.
  destruct core_transitions as (Hbook & _ & Hsession & Hcancel & _).
  destruct (Hcancel today (one_booking COMPLETED) no_session (by_id "1") "1"
              eq_refl Hne) as [_ H3].
  destruct (Hsession today (one_booking COMPLETED) (holding 1) (no_args None)
              Hno) as [_ H4].
  destruct (Hbook today (one_booking COMPLETED) no_session GET Hfresh)
    as [H5 _].
  exact (conj H1 (conj H2 (conj H3 (conj H4 (conj Hfresh H5))))).
Defined.

(** C2, as first stated: the cancel callback deletes a CONFIRMED booking
    and the success callback confirms a CANCELLED one. *)
Lemma callbacks_ignore_status :
  bookings (one_booking CONFIRMED) !! 1 = Some (ann CONFIRMED slot)
  /\ Booking.status (ann CONFIRMED slot) <> PENDING
  /\ bookings (store (booking_cancel today (one_booking CONFIRMED) no_session
                        (by_id "1"))) !! 1 = None
  /\ bookings (one_booking CANCELLED) !! 1 = Some (ann CANCELLED slot)
  /\ Booking.status (ann CANCELLED slot) <> PENDING
  /\ Booking.status
       <$> bookings (store (booking_success today (one_booking CANCELLED)
                              no_session (by_id "1"))) !! 1
     = Some CONFIRMED.
Proof.
  split; [reflexivity|]. split; [discriminate|].
  split; [vm_compute; reflexivity|]. split; [reflexivity|].
  split; [discriminate|]. vm_compute. reflexivity.
Qed.

(** * Further properties of the code *)

(** ** Availability check *)

Lemma not_excluded_false (x : option Z) (id : Z) :
  Booking.not_excluded x id = false <-> x = Some id /\ id <> 0.
Proof.
  unfold Booking.not_excluded. destruct x as [x0|].
  - destruct (Z.eqb_spec x0 0) as [->|Hx0].
    + split; [discriminate|]. intros [[= ->] Hne]. congruence.
    + rewrite negb_false_iff, Z.eqb_eq. split.
      * intros ->. split; [reflexivity | exact Hx0].
      * intros [[= ->] _]. reflexivity.
  - split; [discriminate|]. intros [Hx _]. discriminate.
Qed.

(** X1.  [check_availability] answers True exactly when every active
    booking the three-way rule flags is the excluded one; the exclusion
    applies to a non-zero id only, so passing 0 (or nothing) excludes no
    row. *)
Theorem check_availability_excluding (table : gmap Z Booking.t) (s e : Z)
    (exclude_booking_id : option Z) :
  Booking.check_availability table s e exclude_booking_id = true
  <-> forall id b, table !! id = Some b -> active b = true ->
        Booking.intersects s e b = true ->
        exclude_booking_id = Some id /\ id <> 0.
Proof.
  unfold Booking.check_availability, active. split.
  - destruct (first _) as [r|] eqn:Hf; [discriminate|].
    intros _ id b Hrow Hact Hint.
    apply first_query_filter_None with (id := id) (row := b) in Hf;
      [|exact Hrow].
    simpl in Hf. rewrite Hact, Hint in Hf. simpl in Hf.
    apply not_excluded_false, Hf.
  - intros Hall. destruct (first _) as [r|] eqn:Hf; [|reflexivity].
    assert (Hex : exists r, first (query_filter
              (fun id b => in_ (Booking.status b) [PENDING; CONFIRMED]
                 && Booking.intersects s e b
                 && Booking.not_excluded exclude_booking_id id) table)
              = Some r) by eauto.
    apply first_query_filter_Some in Hex as (id & b & Hrow & Hc).
    apply andb_prop in Hc as [Hc Hex]. apply andb_prop in Hc as [Hact Hint].
    apply (Hall id b Hrow Hact), not_excluded_false in Hint. congruence.
Qed.

Lemma intersects_false_apart (s e : Z) (b : Booking.t) :
  Booking.intersects s e b = false ->
  ~ (s < Booking.end_ b /\ Booking.start b < e).
Proof.
  intros Hno Hmeet.
  assert (Hyes : Booking.intersects s e b = true)
    by (apply intersects_spec; lia).
  congruence.
Qed.

(** X2.  A slot the three-way rule does not flag against a stored booking
    does not meet it, whatever the two intervals; for two intervals with
    start < end the rule is exactly "candidate.start < stored.end and
    stored.start < candidate.end", so a slot that begins when the stored
    one ends, or ends when it begins, is not flagged. *)
Theorem intersects_slots (s e : Z) (b : Booking.t) :
  (Booking.intersects s e b = false ->
   ~ (s < Booking.end_ b /\ Booking.start b < e))
  /\ (s < e -> Booking.start b < Booking.end_ b ->
      (Booking.intersects s e b = true
       <-> s < Booking.end_ b /\ Booking.start b < e)
      /\ (s = Booking.end_ b \/ e = Booking.start b ->
          Booking.intersects s e b = false)).
Proof.
  split.
  - apply intersects_false_apart.
  - intros Hse Hb. split.
    + rewrite intersects_spec. lia.
    + intros Htouch.
      destruct (Booking.intersects s e b) eqn:Hint; [|reflexivity].
      apply intersects_spec in Hint. lia.
Qed.

(** ** Slot validator and form *)

Lemma validate_start_returns (table : gmap Z Booking.t)
    (now data : datetime) :
  BookingForm.validate_start table now data = returns
  <-> now + timedelta.hours 24 <= data
      /\ 5 <= hour data < 18
      /\ forall id b, table !! id = Some b -> active b = true ->
           Booking.intersects data (data + timedelta.hours 2) b = false.
Proof.
  unfold BookingForm.validate_start, active.
  rewrite <- check_availability_true, Z.geb_leb.
  destruct (Z.ltb_spec data (now + timedelta.hours 24)) as [Hlt|Hge].
  { split; [discriminate | lia]. }
  destruct (Z.ltb_spec (hour data) 5) as [Hlo|Hlo]; simpl.
  { split; [discriminate | lia]. }
  destruct (Z.leb_spec 18 (hour data)) as [Hhi|Hhi]; simpl.
  { split; [discriminate | lia]. }
  destruct (Booking.check_availability table data
              (data + timedelta.hours 2) None); simpl.
  - split; [intros _; repeat split; try lia | reflexivity].
  - split; [discriminate | intros (_ & _ & Hc); discriminate].
Qed.

Lemma validate_start_returns_free (table : gmap Z Booking.t)
    (now data : datetime) (id : Z) (b : Booking.t) :
  BookingForm.validate_start table now data = returns ->
  table !! id = Some b -> active b = true ->
  ~ (data < Booking.end_ b /\ Booking.start b < data + timedelta.hours 2).
Proof.
  intros Hok Hrow Hact.
  apply validate_start_returns in Hok as (_ & _ & Hfree).
  apply intersects_false_apart, (Hfree id b); assumption.
Qed.

(** X4.  The slot validator accepts a start exactly when it is at least 24
    hours ahead, its hour of day is in [5, 18), and the three-way rule
    flags no active booking against [start, start + 2h); an accepted slot
    meets the slot of no active booking. *)
Theorem validate_start_accepts (table : gmap Z Booking.t)
    (now data : datetime) :
  (BookingForm.validate_start table now data = returns
   <-> now + timedelta.hours 24 <= data
       /\ 5 <= hour data < 18
       /\ forall id b, table !! id = Some b -> active b = true ->
            Booking.intersects data (data + timedelta.hours 2) b = false)
  /\ (BookingForm.validate_start table now data = returns ->
      forall id b, table !! id = Some b -> active b = true ->
        ~ (data < Booking.end_ b
           /\ Booking.start b < data + timedelta.hours 2)).
Proof.
  split.
  - apply validate_start_returns.
  - intros Hok id b. apply (validate_start_returns_free table now data id b Hok).
Qed.

Lemma validate_email_field (w : wtforms) (d : db) (now utcnow : datetime)
    (f : BookingForm.t) :
  BookingForm.validate w d now utcnow f = true ->
  BookingForm.validate_email (bookings d) utcnow (BookingForm.email f)
  = returns.
Proof.
  intros Hv.
  assert (He : BookingForm.email_errors w d utcnow f = []).
  { apply (validate_fields _ _ _ _ _ Hv "email").
    unfold BookingForm.field_errors. do 3 right. left. reflexivity. }
  unfold BookingForm.email_errors in He.
  destruct (negb (DataRequired w (BookingForm.email f))); [discriminate|].
  apply app_eq_nil in He as [_ He].
  destruct (BookingForm.validate_email _ _ _); [reflexivity | discriminate].
Qed.

(** X5.  A form that validates carries an accepted token, the non-zero id
    of a stored ACTIVE product, a start the slot validator accepts and an
    email the rate limiter accepts. *)
Theorem validate_sound (w : wtforms) (d : db) (now utcnow : datetime)
    (f : BookingForm.t) :
  BookingForm.validate w d now utcnow f = true ->
  BookingForm.csrf_token f = true
  /\ (exists id p,
        BookingForm.product_id f = Some id /\ id <> 0
        /\ products d !! id = Some p /\ Product.status p = ACTIVE)
  /\ (exists data,
        BookingForm.start f = Some data
        /\ BookingForm.validate_start (bookings d) now data = returns)
  /\ BookingForm.validate_email (bookings d) utcnow (BookingForm.email f)
     = returns.
Proof.
  intros Hv. split; [|split; [|split]].
  - assert (He : (if BookingForm.csrf_token f then [] else [csrf_rejected])
                 = []).
    { apply (validate_fields _ _ _ _ _ Hv "csrf_token").
      unfold BookingForm.field_errors. left. reflexivity. }
    destruct (BookingForm.csrf_token f); [reflexivity | discriminate].
  - destruct (validate_product_id _ _ _ _ _ Hv) as (id & p & Hid & Hrow & Hact).
    exists id, p. repeat split; try assumption.
    intros ->.
    assert (He : BookingForm.product_id_errors d f = []).
    { apply (validate_fields _ _ _ _ _ Hv "product_id").
      unfold BookingForm.field_errors. right. left. reflexivity. }
    unfold BookingForm.product_id_errors in He. rewrite Hid in He.
    discriminate.
  - apply (validate_start_data _ _ _ _ _ Hv).
  - apply (validate_email_field _ _ _ _ _ Hv).
Qed.

(** ** Booking route *)

Lemma booking_accepted (e : env) (d : db) (s : session) (f : BookingForm.t)
    (id : Z) (p : Product.t) (data : datetime) (c : checkout_session) :
  BookingForm.validate (lib e) d (now_ e) (utcnow_ e) f = true ->
  BookingForm.product_id f = Some id ->
  products d !! id = Some p ->
  BookingForm.start f = Some data ->
  create_stripe_checkout_session (gateway e) p
    (callback_url e "/booking/success" (next_booking_id d))
    (callback_url e "/booking/cancel" (next_booking_id d)) = Some c ->
  booking e d s (POST f)
  = {| store :=
         with_bookings d
           (<[next_booking_id d := new_booking e f id data]> (bookings d))
           (next_booking_id d + 1);
       cookie := {| pending_booking_id := Some (next_booking_id d) |};
       flashed := []; sent := []; reply := redirect (url c) |}.
Proof.
  intros Hv Hid Hrow Hstart Hpay.
  rewrite (booking_valid _ _ _ _ Hv). unfold booking_submitted.
  rewrite Hid. simpl. rewrite Hrow. simpl. rewrite Hstart. simpl.
  rewrite Hpay. reflexivity.
Qed.

(** The three ways [booking] can end: nothing stored; a row stored and
    deleted again; the validated form's row stored under the next key. *)
Lemma booking_bookings (e : env) (d : db) (s : session) (r : request) :
  pk_fresh d ->
  (sent (booking e d s r) = [] /\ cookie (booking e d s r) = s
   /\ (store (booking e d s r) = d
       \/ store (booking e d s r)
          = with_bookings d (bookings d) (next_booking_id d + 1)))
  \/ exists f id p data c,
       r = POST f
       /\ BookingForm.validate (lib e) d (now_ e) (utcnow_ e) f = true
       /\ BookingForm.product_id f = Some id
       /\ products d !! id = Some p
       /\ BookingForm.start f = Some data
       /\ booking e d s r
          = {| store :=
                 with_bookings d
                   (<[next_booking_id d := new_booking e f id data]>
                      (bookings d))
                   (next_booking_id d + 1);
               cookie := {| pending_booking_id := Some (next_booking_id d) |};
               flashed := []; sent := []; reply := redirect (url c) |}.
Proof.
  intros Hfresh. destruct r as [|f]; [left; repeat split; left; reflexivity|].
  destruct (BookingForm.validate (lib e) d (now_ e) (utcnow_ e) f) eqn:Hv.
  2:{ left. unfold booking. rewrite Hv. repeat split. left. reflexivity. }
  destruct (validate_product_id _ _ _ _ _ Hv) as (id & p & Hid & Hrow & _).
  destruct (validate_start_data _ _ _ _ _ Hv) as (data & Hstart & _).
  destruct (create_stripe_checkout_session (gateway e) p
              (callback_url e "/booking/success" (next_booking_id d))
              (callback_url e "/booking/cancel" (next_booking_id d)))
    as [c|] eqn:Hpay.
  - right. exists f, id, p, data, c. repeat split; try assumption.
    apply (booking_accepted e d s f id p data c); assumption.
  - left. rewrite (booking_valid _ _ _ _ Hv). unfold booking_submitted.
    rewrite Hid. simpl. rewrite Hrow. simpl. rewrite Hstart. simpl.
    rewrite Hpay. simpl. repeat split. right.
    unfold db_delete, with_bookings. simpl.
    rewrite delete_insert_eq, delete_id by exact Hfresh. reflexivity.
Qed.

(** X6.  A valid submission for which the processor opens a checkout
    stores one new row under the next key: PENDING, without payment
    reference, for the ACTIVE product chosen, with the form's contact data,
    the requested start and end = start + 2 hours.  Every other row and the
    products are untouched, the session remembers the new id and the
    client is redirected to the checkout page. *)
Theorem booking_creates_pending (e : env) (d : db) (s : session)
    (f : BookingForm.t) (id : Z) (p : Product.t) (c : checkout_session) :
  BookingForm.validate (lib e) d (now_ e) (utcnow_ e) f = true ->
  BookingForm.product_id f = Some id ->
  products d !! id = Some p ->
  create_stripe_checkout_session (gateway e) p
    (callback_url e "/booking/success" (next_booking_id d))
    (callback_url e "/booking/cancel" (next_booking_id d)) = Some c ->
  let o := booking e d s (POST f) in
  Product.status p = ACTIVE
  /\ (exists b,
        bookings (store o) !! next_booking_id d = Some b
        /\ Booking.status b = PENDING
        /\ Booking.stripe_payment_id b = None
        /\ Booking.product_id b = id
        /\ Booking.user_id b = current_user e
        /\ Booking.email b = BookingForm.email f
        /\ BookingForm.start f = Some (Booking.start b)
        /\ Booking.end_ b = Booking.start b + timedelta.hours 2)
  /\ (forall k, k <> next_booking_id d ->
        bookings (store o) !! k = bookings d !! k)
  /\ products (store o) = products d
  /\ next_booking_id (store o) = next_booking_id d + 1
  /\ cookie o = {| pending_booking_id := Some (next_booking_id d) |}
  /\ sent o = []
  /\ reply o = redirect (url c).
Proof.
  intros Hv Hid Hrow Hpay o. subst o.
  destruct (validate_product_id _ _ _ _ _ Hv) as (id' & p' & Hid' & Hrow' & Hact).
  assert (id' = id) by congruence. subst id'.
  assert (p' = p) by congruence. subst p'.
  destruct (validate_start_data _ _ _ _ _ Hv) as (data & Hstart & _).
  rewrite (booking_accepted e d s f id p data c Hv Hid Hrow Hstart Hpay).
  simpl. split; [exact Hact|]. split.
  - exists (new_booking e f id data). rewrite lookup_insert_eq.
    repeat split. exact Hstart.
  - repeat split. intros k Hk. apply lookup_insert_ne. congruence.
Qed.

(** X7.  Whatever the request, [booking] sends no mail and leaves the
    products alone; it leaves the bookings and the session as they were
    unless it answers with a redirect to the processor's checkout page, in
    which case exactly the row of the validated form was added under the
    next key. *)
Theorem booking_changes_only_on_checkout (e : env) (d : db) (s : session)
    (r : request) :
  pk_fresh d ->
  let o := booking e d s r in
  sent o = []
  /\ products (store o) = products d
  /\ ((bookings (store o) = bookings d /\ cookie o = s)
      \/ exists f id data c,
           r = POST f
           /\ BookingForm.product_id f = Some id
           /\ BookingForm.start f = Some data
           /\ bookings (store o)
              = <[next_booking_id d := new_booking e f id data]> (bookings d)
           /\ cookie o = {| pending_booking_id := Some (next_booking_id d) |}
           /\ reply o = redirect (url c)).
Proof.
  intros Hfresh o. subst o.
  destruct (booking_bookings e d s r Hfresh)
    as [(Hsent & Hcookie & [Hd|Hd])
       |(f & id & p & data & c & Hr & _ & Hid & _ & Hstart & Hb)].
  - rewrite Hsent, Hcookie, Hd. repeat split. left. split; reflexivity.
  - rewrite Hsent, Hcookie, Hd. repeat split. left. split; reflexivity.
  - rewrite Hb. simpl. repeat split. right.
    exists f, id, data, c. repeat split; assumption.
Qed.

Lemma validate_start_field (w : wtforms) (d : db) (now utcnow : datetime)
    (f : BookingForm.t) (data : datetime) :
  BookingForm.start f = Some data ->
  BookingForm.validate_start (bookings d) now data <> returns ->
  BookingForm.validate w d now utcnow f = false.
Proof.
  intros Hstart Hrej.
  destruct (BookingForm.validate w d now utcnow f) eqn:Hv; [|reflexivity].
  destruct (validate_start_data _ _ _ _ _ Hv) as (data' & Hstart' & Hok).
  congruence.
Qed.

(** X8.  A submission whose two-hour slot meets the slot of a stored active
    booking is never stored, whatever the clocks, the processor or the rest
    of the form: the store and the session stay as they are and the form
    comes back with errors.  In particular, re-submitting the start of a
    booking that is still PENDING or CONFIRMED creates no second row. *)
Theorem booking_rejects_taken_slot (e : env) (d : db) (s : session)
    (f : BookingForm.t) (data : datetime) (k : Z) (b : Booking.t) :
  BookingForm.start f = Some data ->
  bookings d !! k = Some b ->
  active b = true ->
  data < Booking.end_ b ->
  Booking.start b < data + timedelta.hours 2 ->
  let errors := BookingForm.errors (lib e) d (now_ e) (utcnow_ e) f in
  booking e d s (POST f)
  = {| store := d; cookie := s; flashed := []; sent := [];
       reply := form_page errors |}
  /\ errors <> [].
Proof.
  intros Hstart Hrow Hact Hlt1 Hlt2 errors.
  assert (Hv : BookingForm.validate (lib e) d (now_ e) (utcnow_ e) f = false).
  { apply (validate_start_field _ _ _ _ _ data Hstart). intros Hok.
    apply (validate_start_returns_free (bookings d) (now_ e) data k b Hok
             Hrow Hact).
    split; assumption. }
  split.
  - unfold booking. rewrite Hv. reflexivity.
  - unfold BookingForm.validate in Hv. apply bool_decide_eq_false in Hv.
    exact Hv.
Qed.

(** ** Invariants of the bookings table *)



(** Confirming a CANCELLED booking can put two active bookings in the same
    slot: the callback does not run the availability check. *)
Example success_can_double_book :
  no_double_booking
    (shop (<[1 := ann CANCELLED slot]> (<[2 := bob CONFIRMED slot]> ∅)) 3)
  /\ ~ no_double_booking
         (store (booking_success today
                   (shop (<[1 := ann CANCELLED slot]>
                            (<[2 := bob CONFIRMED slot]> ∅)) 3)
                   no_session (by_id "1"))).
Proof.
  split.
  - intros i j a b Hij Hi Hj Ha Hb. simpl in Hi, Hj.
    destruct (decide (i = 1)) as [->|Hi1].
    + rewrite lookup_insert_eq in Hi. injection Hi as <-. discriminate.
    + rewrite lookup_insert_ne in Hi by congruence.
      destruct (decide (j = 1)) as [->|Hj1].
      * rewrite lookup_insert_eq in Hj. injection Hj as <-. discriminate.
      * rewrite lookup_insert_ne in Hj by congruence.
        destruct (decide (i = 2)) as [->|Hi2];
          [|rewrite lookup_insert_ne, lookup_empty in Hi by congruence;
            discriminate].
        destruct (decide (j = 2)) as [->|Hj2]; [congruence|].
        rewrite lookup_insert_ne, lookup_empty in Hj by congruence.
        discriminate.
  - intros Hinv.
    apply (Hinv 1 2 (confirmed (ann CANCELLED slot) "completed")
             (bob CONFIRMED slot)).
    + discriminate.
    + vm_compute. reflexivity.
    + vm_compute. reflexivity.
    + reflexivity.
    + reflexivity.
    + split; reflexivity.
Qed.

(** X10.  Every request served by the core keeps the stored bookings well
    formed: each lasts exactly two hours, starts at an hour of day in
    [5, 18) and refers to a stored product. *)
Theorem bookings_ok_kept (d d' : db) :
  bookings_ok d -> core_step d d' -> bookings_ok d'.
Proof.
  intros Hok Hstep.
  destruct Hstep as [e d s r Hfresh|e d s args|e d s args].
  - destruct (booking_bookings e d s r Hfresh)
      as [(_ & _ & [Hd|Hd])
         |(f & id & p & data & c & _ & Hv & _ & Hrow & Hstart & Hb)].
    + rewrite Hd. exact Hok.
    + rewrite Hd. exact Hok.
    + rewrite Hb. simpl. intros k b Hk. simpl in Hk.
      destruct (decide (next_booking_id d = k)) as [<-|Hne].
      * rewrite lookup_insert_eq in Hk. injection Hk as <-.
        destruct (validate_start_data _ _ _ _ _ Hv) as (data' & Hs' & Hacc).
        assert (data' = data) by congruence. subst data'.
        apply validate_start_returns in Hacc as (_ & Hhour & _).
        unfold booking_ok. simpl. rewrite Hrow. eauto.
      * rewrite lookup_insert_ne in Hk by exact Hne. apply (Hok k b Hk).
  - rewrite booking_success_designated.
    destruct (designated e d s args) as [[k b0]|] eqn:Hd; [|exact Hok].
    apply designated_Some in Hd. intros i b Hi. simpl in Hi.
    destruct (decide (k = i)) as [<-|Hne].
    + rewrite lookup_insert_eq in Hi. injection Hi as <-.
      apply (Hok k b0 Hd).
    + rewrite lookup_insert_ne in Hi by exact Hne. apply (Hok i b Hi).
  - rewrite booking_cancel_designated.
    destruct (designated e d s args) as [[k b0]|]; [|exact Hok].
    intros i b Hi. simpl in Hi. apply lookup_delete_Some in Hi as [_ Hi].
    apply (Hok i b Hi).
Qed.

(** ** From reservation to resolution *)

Lemma success_from_session (e : env) (d : db) (id : Z) (b : Booking.t)
    (pay : option string) :
  id <> 0 -> bookings d !! id = Some b ->
  booking_success e d {| pending_booking_id := Some id |} (no_args pay)
  = {| store :=
         with_bookings d
           (<[id := confirmed b (default "completed" pay)]> (bookings d))
           (next_booking_id d);
       cookie := {| pending_booking_id := None |};
       flashed :=
         [("Your booking has been confirmed! You will receive a confirmation email shortly.",
           "success")];
       sent := [booking_confirmation (Booking.email b) id;
                booking_notification "crypticmobiledetailing@gmail.com" id];
       reply := render_template "success.html"
                  (with_booking id (confirmed b (default "completed" pay))) |}.
Proof.
  intros Hne Hrow. unfold booking_success, requested_booking_id. simpl.
  destruct (Z.eqb_spec id 0) as [?|_]; [contradiction|]. simpl.
  unfold Booking_query_get. simpl. rewrite Hrow. reflexivity.
Qed.

(** X11.  Reservation followed by payment: after a valid submission for
    which the processor opened a checkout, the success callback called
    with the session the reservation left (no id in the URL) confirms
    exactly the row just created, notifies the contact email of the form
    and the operator, and clears the id from the session.  Called with an
    id in the URL that the store matches to the new key, it leaves the
    same store. *)
Theorem booking_then_success (e e' : env) (d : db) (s : session)
    (f : BookingForm.t) (id : Z) (p : Product.t) (c : checkout_session)
    (pay : option string) :
  BookingForm.validate (lib e) d (now_ e) (utcnow_ e) f = true ->
  BookingForm.product_id f = Some id ->
  products d !! id = Some p ->
  create_stripe_checkout_session (gateway e) p
    (callback_url e "/booking/success" (next_booking_id d))
    (callback_url e "/booking/cancel" (next_booking_id d)) = Some c ->
  next_booking_id d <> 0 ->
  let o1 := booking e d s (POST f) in
  let o2 := booking_success e' (store o1) (cookie o1) (no_args pay) in
  (exists b,
     bookings (store o1) !! next_booking_id d = Some b
     /\ Booking.status b = PENDING
     /\ bookings (store o2) !! next_booking_id d
        = Some (confirmed b (default "completed" pay)))
  /\ (forall k, k <> next_booking_id d ->
        bookings (store o2) !! k = bookings d !! k)
  /\ sent o2
     = [booking_confirmation (BookingForm.email f) (next_booking_id d);
        booking_notification "crypticmobiledetailing@gmail.com"
          (next_booking_id d)]
  /\ cookie o2 = {| pending_booking_id := None |}
  /\ (forall text, text <> "" -> pk_of_arg e' text = Some (next_booking_id d) ->
        store (booking_success e' (store o1) (cookie o1)
                 {| booking_id := Some text; payment_intent := pay |})
        = store o2).
Proof.
  intros Hv Hid Hrow Hpay Hne o1 o2. subst o1 o2.
  destruct (validate_start_data _ _ _ _ _ Hv) as (data & Hstart & _).
  rewrite (booking_accepted e d s f id p data c Hv Hid Hrow Hstart Hpay).
  simpl.
  rewrite (success_from_session e' _ (next_booking_id d)
             (new_booking e f id data) pay Hne)
    by (simpl; apply lookup_insert_eq).
  simpl. split; [|split; [|split; [|split]]].
  - exists (new_booking e f id data). rewrite !lookup_insert_eq.
    repeat split.
  - intros k Hk. rewrite !lookup_insert_ne by congruence. reflexivity.
  - reflexivity.
  - reflexivity.
  - intros text Htext Hpk. unfold booking_success, requested_booking_id.
    simpl. assert (Hnb : String.eqb text "" = false)
      by (apply String.eqb_neq, Htext).
    rewrite Hnb. simpl. rewrite Hnb. simpl.
    unfold Booking_query_get. rewrite Hpk. simpl.
    rewrite lookup_insert_eq. reflexivity.
Qed.

(** X12.  Reservation followed by cancellation: after a valid submission
    for which the processor opened a checkout, the cancel callback called
    with the session the reservation left removes the row again, so the
    bookings table is the one before the reservation, and clears the id
    from the session. *)
Theorem booking_then_cancel (e e' : env) (d : db) (s : session)
    (f : BookingForm.t) (id : Z) (p : Product.t) (c : checkout_session)
    (pay : option string) :
  pk_fresh d ->
  BookingForm.validate (lib e) d (now_ e) (utcnow_ e) f = true ->
  BookingForm.product_id f = Some id ->
  products d !! id = Some p ->
  create_stripe_checkout_session (gateway e) p
    (callback_url e "/booking/success" (next_booking_id d))
    (callback_url e "/booking/cancel" (next_booking_id d)) = Some c ->
  next_booking_id d <> 0 ->
  let o1 := booking e d s (POST f) in
  let o2 := booking_cancel e' (store o1) (cookie o1) (no_args pay) in
  bookings (store o1) <> bookings d
  /\ bookings (store o2) = bookings d
  /\ products (store o2) = products d
  /\ cookie o2 = {| pending_booking_id := None |}
  /\ sent o2 = [].
Proof.
  intros Hfresh Hv Hid Hrow Hpay Hne o1 o2. subst o1 o2.
  destruct (validate_start_data _ _ _ _ _ Hv) as (data & Hstart & _).
  rewrite (booking_accepted e d s f id p data c Hv Hid Hrow Hstart Hpay).
  simpl. split.
  - intros Heq.
    assert (Hl : <[next_booking_id d := new_booking e f id data]> (bookings d)
                 !! next_booking_id d = bookings d !! next_booking_id d)
      by (rewrite Heq; reflexivity).
    rewrite lookup_insert_eq, Hfresh in Hl. discriminate.
  - unfold booking_cancel, requested_booking_id. simpl.
    destruct (Z.eqb_spec (next_booking_id d) 0) as [?|_]; [contradiction|].
    simpl. unfold Booking_query_get. simpl. rewrite lookup_insert_eq. simpl.
    rewrite delete_insert_eq, delete_id by exact Hfresh. repeat split.
Qed.

Lemma requested_again (args : callback_args) (s : session) :
  requested_booking_id args (snd (requested_booking_id args s))
  = (if truthy (booking_id args) then fst (requested_booking_id args s)
     else None,
     snd (requested_booking_id args s)).
Proof.
  unfold requested_booking_id.
  destruct (truthy (booking_id args)); reflexivity.
Qed.

(** X13.  Calling the cancel callback a second time, with the same
    arguments and the session the first call left, gives the same outcome
    as the first call: the second call finds nothing to delete. *)
Theorem booking_cancel_twice (e : env) (d : db) (s : session)
    (args : callback_args) :
  let o1 := booking_cancel e d s args in
  booking_cancel e (store o1) (cookie o1) args = o1.
Proof.
  intros o1. subst o1.
  pose proof (requested_again args s) as Hagain.
  unfold booking_cancel.
  destruct (requested_booking_id args s) as [k s1]. simpl in Hagain |- *.
  rewrite Hagain.
  destruct (truthy (booking_id args)); [|reflexivity].
  destruct (ident_truthy k) eqn:Hk; [|reflexivity].
  destruct k as [k|]; [|discriminate]. simpl.
  destruct (Booking_query_get e d k) as [[id b]|] eqn:Hget.
  - assert (Hgone : Booking_query_get e (db_delete d id) k = None).
    { unfold Booking_query_get in *.
      destruct (match k with
                | from_args text => pk_of_arg e text
                | from_session n => Some n
                end) as [n|]; simpl in *; [|reflexivity].
      destruct (bookings d !! n) as [b0|]; simpl in Hget; [|discriminate].
      injection Hget as <- <-. rewrite lookup_delete_eq. reflexivity. }
    rewrite Hgone. reflexivity.
  - rewrite Hget. reflexivity.
Qed.

Lemma designated_with_arg (e : env) (d : db) (s : session)
    (args : callback_args) :
  truthy (booking_id args) = true ->
  exists text,
    booking_id args = Some text
    /\ snd (requested_booking_id args s) = s
    /\ designated e d s args
       = pk_of_arg e text ≫= fun id => pair id <$> bookings d !! id.
Proof.
  intros Ht. unfold designated, requested_booking_id. rewrite Ht. simpl.
  destruct (booking_id args) as [text|]; [|discriminate].
  exists text. simpl in Ht |- *. rewrite Ht. repeat split.
Qed.

(** X14.  Repeating the success callback.  With the id in the URL, a
    second call with the same arguments gives the same outcome as the
    first: the store does not change again, and both notifications are
    sent again.  With the id taken from the session, the first call uses
    it up, so a second call finds no id and answers "confirmation failed"
    although the booking stays confirmed. *)
Theorem booking_success_twice (e : env) (d : db) (s : session)
    (args : callback_args) :
  let o1 := booking_success e d s args in
  (truthy (booking_id args) = true ->
   booking_success e (store o1) (cookie o1) args = o1)
  /\ (truthy (booking_id args) = false ->
      booking_success e (store o1) (cookie o1) args
      = confirmation_failed (store o1) {| pending_booking_id := None |}).
Proof.
  intros o1. subst o1. split; intros Ht.
  - destruct (designated_with_arg e d s args Ht) as (text & Harg & Hs & Hd).
    rewrite (booking_success_designated e d s args), Hs, Hd.
    destruct (pk_of_arg e text) as [id|] eqn:Hpk; simpl.
    + destruct (bookings d !! id) as [b|] eqn:Hrow; simpl.
      * rewrite booking_success_designated. simpl.
        destruct (designated_with_arg e
                    (with_bookings d
                       (<[id := confirmed b
                                  (default "completed" (payment_intent args))]>
                          (bookings d))
                       (next_booking_id d)) s args Ht)
          as (text' & Harg' & Hs' & Hd').
        assert (text' = text) by congruence. subst text'.
        rewrite Hs', Hd', Hpk. simpl. rewrite lookup_insert_eq. simpl.
        unfold with_bookings. simpl. rewrite insert_insert_eq. reflexivity.
      * rewrite booking_success_designated. simpl.
        destruct (designated_with_arg e d s args Ht)
          as (text' & Harg' & Hs' & Hd').
        assert (text' = text) by congruence. subst text'.
        rewrite Hs', Hd', Hpk. simpl. rewrite Hrow. reflexivity.
    + rewrite booking_success_designated. simpl.
      destruct (designated_with_arg e d s args Ht)
        as (text' & Harg' & Hs' & Hd').
      assert (text' = text) by congruence. subst text'.
      rewrite Hs', Hd', Hpk. reflexivity.
  - assert (Hc : cookie (booking_success e d s args)
                 = {| pending_booking_id := None |}).
    { rewrite booking_success_designated.
      assert (Hs : snd (requested_booking_id args s)
                   = {| pending_booking_id := None |})
        by (unfold requested_booking_id; rewrite Ht; reflexivity).
      destruct (designated e d s args) as [[id b]|]; simpl; exact Hs. }
    rewrite Hc. generalize (store (booking_success e d s args)). intros d1.
    unfold booking_success, requested_booking_id. rewrite Ht. reflexivity.
Qed.

(** ** Callback URLs and checkout *)

Lemma append_cancel_l (prefix a b : string) :
  prefix +:+ a = prefix +:+ b -> a = b.
Proof.
  induction prefix as [|c prefix IH]; simpl; [tauto|].
  intros [= H]. apply IH, H.
Qed.

(** X15.  The callback URL built for a booking determines its id: two
    bookings never share a success (or cancel) URL. *)
Theorem callback_url_inj (e : env) (path : string) (i j : Z) :
  callback_url e path i = callback_url e path j -> i = j.
Proof.
  unfold callback_url. intros H.
  do 4 apply append_cancel_l in H.
  apply (inj pretty), H.
Qed.

(** X16.  Without a configured key no checkout is created, whatever the
    processor would answer.  When a checkout is returned, it is the
    processor's answer to a request in mode "payment" carrying the two
    given URLs and one line item of quantity 1, which is the stored price
    id when the product has one (the product's price is then not used). *)
Theorem checkout_session_request (st : stripe) (p : Product.t)
    (success cancel : string) :
  (truthy (api_key st) = false ->
   create_stripe_checkout_session st p success cancel = None)
  /\ (forall c,
        create_stripe_checkout_session st p success cancel = Some c ->
        truthy (api_key st) = true
        /\ exists item,
             build_line_items p = Some [item]
             /\ Session_create st
                  {| line_items := [item]; mode := "payment";
                     success_url := success; cancel_url := cancel;
                     automatic_tax := true;
                     billing_address_collection := "required";
                     customer_creation := "always" |} = Some c
             /\ match item with
                | price_ref _ quantity => quantity = 1
                | price_data currency _ _ _ quantity =>
                    currency = "usd" /\ quantity = 1
                end
             /\ (forall price_id,
                   Product.stripe_price_id p = Some price_id ->
                   price_id <> "" -> item = price_ref price_id 1)).
Proof.
  unfold create_stripe_checkout_session. split.
  - intros ->. reflexivity.
  - intros c. destruct (truthy (api_key st)); simpl; [|discriminate].
    unfold build_line_items.
    destruct (Product.stripe_price_id p) as [price_id|] eqn:Hid; simpl.
    + destruct (String.eqb_spec price_id "") as [->|Hne]; simpl.
      * destruct (unit_amount_of (Product.price p)) as [cents|];
          [|discriminate].
        intros Hc. split; [reflexivity|]. eexists. split; [reflexivity|].
        split; [exact Hc|]. split; [split; reflexivity|].
        intros q [= <-] Hq. congruence.
      * intros Hc. split; [reflexivity|]. eexists. split; [reflexivity|].
        split; [exact Hc|]. split; [reflexivity|].
        intros q [= <-] _. reflexivity.
    + destruct (unit_amount_of (Product.price p)) as [cents|];
        [|discriminate].
      intros Hc. split; [reflexivity|]. eexists. split; [reflexivity|].
      split; [exact Hc|]. split; [split; reflexivity|]. discriminate.
Qed.

Lemma before_comma_spec (text : string) :
  has_comma (utils.before_comma text) = false
  /\ (has_comma text = false -> utils.before_comma text = text)
  /\ (has_comma text = true ->
      exists rest, text = utils.before_comma text +:+ "," +:+ rest).
Proof.
  induction text as [|c text (IH1 & IH2 & IH3)]; simpl.
  - repeat split. discriminate.
  - destruct (Ascii.eqb c utils.comma) eqn:Hc; simpl.
    + repeat split; [discriminate|]. intros _. exists text.
      apply Ascii.eqb_eq in Hc. subst c. reflexivity.
    + rewrite Hc. simpl. repeat split.
      * exact IH1.
      * intros H. rewrite (IH2 H). reflexivity.
      * intros H. destruct (IH3 H) as [rest Hrest]. exists rest.
        rewrite Hrest at 1. reflexivity.
Qed.

(** X17.  [get_domain]: in a deployment it is whatever REPLIT_DEV_DOMAIN
    holds, nothing when that variable is unset; otherwise it is the part
    of REPLIT_DOMAINS before its first comma (the whole value when there
    is no comma), and "localhost:5000" when REPLIT_DOMAINS is unset or
    empty. *)
Theorem get_domain_cases (environ : gmap string string) :
  (truthy (environ !! "REPLIT_DEPLOYMENT") = true ->
   utils.get_domain environ = environ !! "REPLIT_DEV_DOMAIN")
  /\ (truthy (environ !! "REPLIT_DEPLOYMENT") = false ->
      truthy (environ !! "REPLIT_DOMAINS") = false ->
      utils.get_domain environ = Some "localhost:5000")
  /\ (forall domains,
        truthy (environ !! "REPLIT_DEPLOYMENT") = false ->
        environ !! "REPLIT_DOMAINS" = Some domains -> domains <> "" ->
        exists first_domain,
          utils.get_domain environ = Some first_domain
          /\ has_comma first_domain = false
          /\ (has_comma domains = false -> first_domain = domains)
          /\ (has_comma domains = true ->
              exists rest, domains = first_domain +:+ "," +:+ rest)).
Proof.
  unfold utils.get_domain. split; [|split].
  - intros ->. reflexivity.
  - intros -> Hd. destruct (environ !! "REPLIT_DOMAINS") as [domains|];
      simpl in *; [|reflexivity].
    apply negb_false_iff in Hd. rewrite Hd. reflexivity.
  - intros domains -> Hd Hne. rewrite Hd. simpl.
    apply String.eqb_neq in Hne. rewrite Hne. simpl.
    exists (utils.before_comma domains). split; [reflexivity|].
    apply before_comma_spec.
Qed.

(** ** Product deletion *)

Lemma Product_bookings_nil (d : db) (product_id : Z) :
  Product_bookings d product_id = []
  <-> forall k b, bookings d !! k = Some b ->
        Booking.product_id b <> product_id.
Proof.
  unfold Product_bookings.
  rewrite <- (head_None (query_filter _ _)).
  change (head (query_filter
            (fun _ b => Booking.product_id b =? product_id) (bookings d)))
    with (first (query_filter
            (fun _ b => Booking.product_id b =? product_id) (bookings d))).
  rewrite first_query_filter_None. split; intros H k b Hrow.
  - apply Z.eqb_neq, (H k b Hrow).
  - apply Z.eqb_neq, (H k b Hrow).
Qed.

Lemma admin_delete_product_cases (user : option User.t) (d : db)
    (product_id : Z) (o : admin_outcome) :
  admin_delete_product user d product_id = served o ->
  after o = d
  \/ (exists u p,
        user = Some u /\ User.role u = ADMIN
        /\ products d !! product_id = Some p
        /\ (forall k b, bookings d !! k = Some b ->
              Booking.product_id b <> product_id)
        /\ after o
           = {| products := delete product_id (products d);
                bookings := bookings d;
                next_booking_id := next_booking_id d |}
        /\ notices o = [("Product deleted successfully!", "success")]).
Proof.
  unfold admin_delete_product. destruct user as [u|]; [|discriminate].
  intros [= <-].
  destruct (bool_decide (User.role u = ADMIN)) eqn:Hrole; simpl;
    [|left; reflexivity].
  apply bool_decide_eq_true in Hrole.
  destruct (products d !! product_id) as [p|] eqn:Hrow; [|left; reflexivity].
  destruct (Product_bookings d product_id) as [|row rows] eqn:Hb;
    [|left; reflexivity].
  right. exists u, p. repeat split; try assumption; try reflexivity.
  apply Product_bookings_nil, Hb.
Qed.

(** X18.  Deleting a product changes the store only for a logged-in ADMIN,
    an existing product and no booking referring to it; then exactly that
    product is removed.  The bookings are never touched, an anonymous
    visitor is sent to the login view, and for an ADMIN a product that some
    booking refers to stays with the message "Cannot delete product with
    existing bookings." *)
Theorem admin_delete_product_guard (user : option User.t) (d : db)
    (product_id : Z) :
  (user = None -> admin_delete_product user d product_id = login_needed)
  /\ (forall o, admin_delete_product user d product_id = served o ->
        bookings (after o) = bookings d
        /\ (forall k, k <> product_id ->
              products (after o) !! k = products d !! k)
        /\ (forall p, products d !! product_id = Some p ->
              (products (after o) !! product_id = None
               <-> (exists u, user = Some u /\ User.role u = ADMIN)
                   /\ forall k b, bookings d !! k = Some b ->
                        Booking.product_id b <> product_id))
        /\ (forall u p k b,
              user = Some u -> User.role u = ADMIN ->
              products d !! product_id = Some p ->
              bookings d !! k = Some b ->
              Booking.product_id b = product_id ->
              after o = d
              /\ notices o
                 = [("Cannot delete product with existing bookings.",
                     "error")])).
Proof.
  split; [intros ->; reflexivity|].
  intros o Ho. split; [|split; [|split]].
  - destruct (admin_delete_product_cases user d product_id o Ho)
      as [->|(u & p & _ & _ & _ & _ & -> & _)]; reflexivity.
  - intros k Hk.
    destruct (admin_delete_product_cases user d product_id o Ho)
      as [->|(u & p & _ & _ & _ & _ & -> & _)]; [reflexivity|].
    simpl. apply lookup_delete_ne. congruence.
  - intros p Hrow. split.
    + intros Hgone.
      destruct (admin_delete_product_cases user d product_id o Ho)
        as [Hd|(u & p' & Hu & Hrole & _ & Hfree & _)].
      * rewrite Hd in Hgone. congruence.
      * split; [eauto | exact Hfree].
    + intros [(u & -> & Hrole) Hfree].
      unfold admin_delete_product in Ho.
      rewrite bool_decide_eq_true_2 in Ho by exact Hrole. simpl in Ho.
      rewrite Hrow in Ho.
      apply Product_bookings_nil in Hfree. rewrite Hfree in Ho.
      injection Ho as <-. simpl. apply lookup_delete_eq.
  - intros u p k b -> Hrole Hrow Hk Hpid.
    unfold admin_delete_product in Ho.
    rewrite bool_decide_eq_true_2 in Ho by exact Hrole. simpl in Ho.
    rewrite Hrow in Ho.
    destruct (Product_bookings d product_id) as [|row rows] eqn:Hb.
    + exfalso. apply (proj1 (Product_bookings_nil d product_id) Hb k b Hk).
      exact Hpid.
    + injection Ho as <-. split; reflexivity.
Qed.

(** X19.  Deleting a product keeps the stored bookings well formed: no
    booking is left referring to a product that is gone. *)
Theorem admin_delete_product_keeps_bookings_ok (user : option User.t)
    (d : db) (product_id : Z) (o : admin_outcome) :
  bookings_ok d ->
  admin_delete_product user d product_id = served o ->
  bookings_ok (after o).
Proof.
  intros Hok Ho.
  destruct (admin_delete_product_cases user d product_id o Ho)
    as [->|(u & p & _ & _ & _ & Hfree & -> & _)]; [exact Hok|].
  intros k b Hk. simpl in Hk. destruct (Hok k b Hk) as (Hend & Hhour & Hprod).
  unfold booking_ok. simpl. repeat split; try assumption; try lia.
  rewrite lookup_delete_ne; [exact Hprod|].
  intros Heq. apply (Hfree k b Hk). congruence.
Qed.

(** ** Dashboard *)

#[global] Instance newer_total : Total newer.
Proof. intros x y. unfold newer. lia. Qed.

Lemma Sorted_take {A} (R : relation A) (l : list A) (n : nat) :
  Sorted R l -> Sorted R (take n l).
Proof.
  revert n. induction l as [|x l IH]; intros n Hs.
  - destruct n; constructor.
  - destruct n as [|n]; [constructor|]. simpl.
    apply Sorted_inv in Hs as [Hs Hhd]. constructor; [apply IH, Hs|].
    destruct l as [|y l]; [destruct n; constructor|].
    destruct n as [|n]; [constructor|]. simpl. constructor.
    apply HdRel_inv in Hhd. exact Hhd.
Qed.

Lemma filter_lengths_disjoint {A} (P Q : A -> bool) (l : list A) :
  (forall x, P x = true -> Q x = true -> False) ->
  (length (List.filter P l) + length (List.filter Q l) <= length l)%nat.
Proof.
  intros Hdisj. induction l as [|x l IH]; simpl; [lia|].
  destruct (P x) eqn:HP, (Q x) eqn:HQ; simpl; try lia.
  destruct (Hdisj x HP HQ).
Qed.

Lemma filter_length_Permutation {A} (P : A -> bool) (l l' : list A) :
  l ≡ₚ l' -> length (List.filter P l) = length (List.filter P l').
Proof.
  induction 1 as [|x l l' _ IH|x y l|l l' l'' _ IH1 _ IH2]; simpl.
  - reflexivity.
  - destruct (P x); simpl; congruence.
  - destruct (P x), (P y); reflexivity.
  - congruence.
Qed.

Lemma sum_prices_defined (d : db) (rows : list (Z * Booking.t)) :
  (forall row, In row rows ->
     is_Some (products d !! Booking.product_id (snd row))) ->
  is_Some (sum_prices d rows).
Proof.
  induction rows as [|row rows IH]; intros Hall; simpl; [eauto|].
  destruct (Hall row (or_introl eq_refl)) as [p ->].
  destruct IH as [total ->]; [|eauto].
  intros r Hr. apply Hall. right. exact Hr.
Qed.

Lemma filter_by_status_In (status : BookingStatus) (table : gmap Z Booking.t)
    (row : Z * Booking.t) :
  In row (filter_by_status status table)
  <-> table !! fst row = Some (snd row) /\ Booking.status (snd row) = status.
Proof.
  unfold filter_by_status, query_filter. rewrite filter_In, bool_decide_eq_true.
  rewrite <- list_elem_of_In. destruct row as [k b]. simpl.
  rewrite elem_of_map_to_list. tauto.
Qed.

(** X20.  For a logged-in ADMIN and well-formed stored bookings the
    dashboard is always rendered (the revenue sum never fails).  Its
    total is the number of stored bookings, the pending and confirmed
    counts together do not exceed it, and "recent" lists min(10, total)
    stored bookings, newest first.  Anyone else gets no figures. *)
Theorem admin_dashboard_statistics (user : option User.t) (d : db) :
  (user = None -> admin_dashboard user d = login_needed)
  /\ (forall u, user = Some u -> User.role u <> ADMIN ->
        admin_dashboard user d = served dashboard_denied)
  /\ (forall u, user = Some u -> User.role u = ADMIN -> bookings_ok d ->
        exists stats,
          admin_dashboard user d = served (dashboard_page stats)
          /\ total_bookings stats = size (bookings d)
          /\ (pending_bookings stats + confirmed_bookings stats
              <= total_bookings stats)%nat
          /\ length (recent_bookings stats)
             = Nat.min 10 (total_bookings stats)
          /\ Sorted newer (recent_bookings stats)
          /\ (forall row, row ∈ recent_bookings stats ->
                bookings d !! fst row = Some (snd row))
          /\ sum_prices d (filter_by_status CONFIRMED (bookings d))
             = Some (total_revenue stats)).
Proof.
  split; [intros ->; reflexivity|]. split.
  - intros u -> Hrole. unfold admin_dashboard.
    rewrite bool_decide_eq_false_2 by exact Hrole. reflexivity.
  - intros u -> Hrole Hok. unfold admin_dashboard.
    rewrite bool_decide_eq_true_2 by exact Hrole. simpl.
    destruct (sum_prices_defined d (filter_by_status CONFIRMED (bookings d)))
      as [revenue Hrev].
    { intros row Hrow. apply filter_by_status_In in Hrow as [Hrow _].
      apply (Hok _ _ Hrow). }
    rewrite Hrev. eexists. split; [reflexivity|]. simpl.
    split; [apply length_map_to_list|]. split; [|split; [|split; [|split]]].
    + unfold filter_by_status, query_filter.
      apply filter_lengths_disjoint. intros row HP HQ.
      apply bool_decide_eq_true in HP, HQ. congruence.
    + rewrite length_take.
      rewrite (Permutation_length (merge_sort_Permutation newer _)).
      reflexivity.
    + apply Sorted_take, Sorted_merge_sort, _.
    + intros [k b] Hin. simpl. apply elem_of_take in Hin as (i & Hi & _).
      apply list_elem_of_lookup_2 in Hi.
      rewrite (merge_sort_Permutation newer _) in Hi.
      apply elem_of_map_to_list, Hi.
    + reflexivity.
Qed.

Lemma map_to_list_update (m : gmap Z Booking.t) (k : Z) (b b' : Booking.t) :
  m !! k = Some b ->
  map_to_list m ≡ₚ (k, b) :: map_to_list (delete k m)
  /\ map_to_list (<[k := b']> m) ≡ₚ (k, b') :: map_to_list (delete k m).
Proof.
  intros Hrow. split.
  - symmetry. apply map_to_list_delete, Hrow.
  - rewrite <- (insert_delete_eq m k b').
    apply map_to_list_insert, lookup_delete_eq.
Qed.

Lemma sum_prices_Permutation (d : db) (l l' : list (Z * Booking.t)) :
  l ≡ₚ l' -> sum_prices d l = sum_prices d l'.
Proof.
  induction 1 as [|x l l' _ IH|x y l|l l' l'' _ IH1 _ IH2]; simpl.
  - reflexivity.
  - rewrite IH. reflexivity.
  - destruct (products d !! Booking.product_id (snd x)) as [p|],
      (products d !! Booking.product_id (snd y)) as [q|],
      (sum_prices d l) as [t|]; try reflexivity.
    f_equal. lia.
  - congruence.
Qed.

Lemma sum_prices_products (d d' : db) (rows : list (Z * Booking.t)) :
  products d = products d' -> sum_prices d rows = sum_prices d' rows.
Proof.
  intros Hp. induction rows as [|row rows IH]; simpl; [reflexivity|].
  rewrite Hp, IH. reflexivity.
Qed.

Lemma filter_Permutation_bool {A} (P : A -> bool) (l l' : list A) :
  l ≡ₚ l' -> List.filter P l ≡ₚ List.filter P l'.
Proof.
  induction 1 as [|x l l' _ IH|x y l|l l' l'' _ IH1 _ IH2]; simpl.
  - reflexivity.
  - destruct (P x); [constructor|]; exact IH.
  - destruct (P x), (P y); try reflexivity. constructor.
  - etransitivity; eassumption.
Qed.

(** X21.  Confirming a PENDING booking moves the dashboard figures as
    expected: the total stays, pending goes down by one, confirmed goes up
    by one and the revenue grows by the price of the booking's product. *)
Theorem success_moves_statistics (e : env) (d : db) (s : session)
    (args : callback_args) (u : User.t) (id : Z) (b : Booking.t)
    (p : Product.t) (before : dashboard) :
  User.role u = ADMIN ->
  designated e d s args = Some (id, b) ->
  Booking.status b = PENDING ->
  products d !! Booking.product_id b = Some p ->
  admin_dashboard (Some u) d = served (dashboard_page before) ->
  exists stats,
    admin_dashboard (Some u) (store (booking_success e d s args))
    = served (dashboard_page stats)
    /\ total_bookings stats = total_bookings before
    /\ S (pending_bookings stats) = pending_bookings before
    /\ confirmed_bookings stats = S (confirmed_bookings before)
    /\ total_revenue stats = total_revenue before + Product.price p.
Proof.
  intros Hrole Hd Hst Hprod Hbefore.
  rewrite booking_success_designated, Hd. simpl.
  apply designated_Some in Hd.
  set (b' := confirmed b (default "completed" (payment_intent args))).
  destruct (map_to_list_update (bookings d) id b b' Hd) as [Hold Hnew].
  unfold admin_dashboard in *.
  rewrite bool_decide_eq_true_2 in * by exact Hrole. simpl in *.
  unfold filter_by_status, query_filter in *.
  set (rest := map_to_list (delete id (bookings d))) in *.
  pose proof (filter_Permutation_bool
                (fun row => bool_decide (Booking.status (snd row) = CONFIRMED))
                _ _ Hold) as HoldC.
  pose proof (filter_Permutation_bool
                (fun row => bool_decide (Booking.status (snd row) = CONFIRMED))
                _ _ Hnew) as HnewC.
  pose proof (filter_length_Permutation
                (fun row => bool_decide (Booking.status (snd row) = PENDING))
                _ _ Hold) as HoldP.
  pose proof (filter_length_Permutation
                (fun row => bool_decide (Booking.status (snd row) = PENDING))
                _ _ Hnew) as HnewP.
  simpl in HoldC, HnewC, HoldP, HnewP.
  rewrite Hst in HoldC, HoldP.
  rewrite bool_decide_eq_false_2 in HoldC by discriminate.
  rewrite bool_decide_eq_true_2 in HoldP by reflexivity.
  simpl in HoldP.
  rewrite (sum_prices_Permutation _ _ _ HoldC) in Hbefore.
  rewrite (sum_prices_products
             (with_bookings d (<[id := b']> (bookings d)) (next_booking_id d))
             d _ eq_refl).
  rewrite (sum_prices_Permutation d _ _ HnewC).
  simpl. rewrite Hprod.
  destruct (sum_prices d (List.filter _ rest)) as [revenue|] eqn:Hrev;
    [|discriminate].
  injection Hbefore as <-. eexists. split; [reflexivity|]. simpl.
  split; [|split; [|split]].
  - rewrite (Permutation_length Hold), (Permutation_length Hnew). reflexivity.
  - rewrite HoldP, HnewP. reflexivity.
  - rewrite (Permutation_length HoldC), (Permutation_length HnewC).
    reflexivity.
  - lia.
Qed.

(** ** More on accepted slots and the rate limit *)

(** X22.  A slot the validator accepts ends two hours of the day later, on
    the same day as it starts: its end lies between 7:00 and 20:00, so no
    accepted booking runs past midnight (though it may run past 18:00). *)
Theorem accepted_slot_same_day (table : gmap Z Booking.t)
    (now data : datetime) :
  BookingForm.validate_start table now data = returns ->
  hour (data + timedelta.hours 2) = hour data + 2
  /\ 7 <= hour (data + timedelta.hours 2) < 20
  /\ (data + timedelta.hours 2) / timedelta.days 1 = data / timedelta.days 1.
Proof.
  intros Hok. apply validate_start_returns in Hok as (_ & Hhour & _).
  unfold hour, timedelta.hours, timedelta.days in *.
  assert (Hq : (data + 2 * 3600000000) / 3600000000
               = data / 3600000000 + 2).
  { apply Z.div_add. lia. }
  rewrite Hq.
  assert (Hd : forall t, t / (1 * 86400000000) = (t / 3600000000) / 24).
  { intros t. rewrite Z.div_div by lia. f_equal. }
  rewrite !Hd, Hq.
  set (q := data / 3600000000) in *.
  pose proof (Z.div_mod q 24 ltac:(lia)) as Hdm.
  assert (Hm : (q + 2) mod 24 = q mod 24 + 2).
  { symmetry. apply (Z.mod_unique_pos (q + 2) 24 (q / 24)); lia. }
  assert (Hdiv : (q + 2) / 24 = q / 24).
  { symmetry. apply (Z.div_unique_pos (q + 2) 24 (q / 24) (q mod 24 + 2));
      lia. }
  rewrite Hm, Hdiv. repeat split; lia.
Qed.

Lemma validate_email_rejected (w : wtforms) (d : db) (now utcnow : datetime)
    (f : BookingForm.t) :
  BookingForm.validate_email (bookings d) utcnow (BookingForm.email f)
  <> returns ->
  BookingForm.validate w d now utcnow f = false.
Proof.
  intros Hrej.
  destruct (BookingForm.validate w d now utcnow f) eqn:Hv; [|reflexivity].
  destruct Hrej. apply (validate_email_field _ _ _ _ _ Hv).
Qed.

(** X23.  While a contact email has a PENDING or CONFIRMED booking whose
    start is not more than 7 days before the moment of the check, every
    submission with that email is refused and stores nothing, whatever
    product and slot it asks for. *)
Theorem booking_rejects_limited_email (e : env) (d : db) (s : session)
    (f : BookingForm.t) (k : Z) (b : Booking.t) :
  bookings d !! k = Some b ->
  active b = true ->
  Booking.email b = BookingForm.email f ->
  utcnow_ e - timedelta.days 7 <= Booking.start b ->
  let errors := BookingForm.errors (lib e) d (now_ e) (utcnow_ e) f in
  booking e d s (POST f)
  = {| store := d; cookie := s; flashed := []; sent := [];
       reply := form_page errors |}
  /\ errors <> [].
Proof.
  intros Hrow Hact Hmail Hwin errors.
  assert (Hrej : BookingForm.validate_email (bookings d) (utcnow_ e)
                   (BookingForm.email f)
                 = ValidationError
                     "You can only book one service per 7-day period.").
  { apply validate_email_spec. exists k, b. repeat split; try assumption.
    apply in_active, Hact. }
  assert (Hv : BookingForm.validate (lib e) d (now_ e) (utcnow_ e) f = false).
  { apply validate_email_rejected. rewrite Hrej. discriminate. }
  split.
  - unfold booking. rewrite Hv. reflexivity.
  - unfold BookingForm.validate in Hv. apply bool_decide_eq_false in Hv.
    exact Hv.
Qed.

(** ** The further properties at sample inputs *)

Lemma validate_sound_witness :
  BookingForm.validate (lib today) empty_shop (now_ today) (utcnow_ today)
    (order 1 slot) = true
  /\ BookingForm.csrf_token (order 1 slot) = true
  /\ BookingForm.validate_email (bookings empty_shop) (utcnow_ today)
       (BookingForm.email (order 1 slot)) = returns.
Proof.
  assert (H1 : BookingForm.validate (lib today) empty_shop (now_ today)
                 (utcnow_ today) (order 1 slot) = true)
    by (vm_compute; reflexivity).
  destruct (validate_sound (lib today) empty_shop (now_ today) (utcnow_ today)
              (order 1 slot) H1) as (H2 & _ & _ & H3).
  exact (conj H1 (conj H2 H3)).
Defined.

Lemma booking_creates_pending_witness :
  BookingForm.validate (lib today) empty_shop (now_ today) (utcnow_ today)
    (order 1 slot) = true
  /\ products empty_shop !! 1 = Some detail
  /\ create_stripe_checkout_session (gateway today) detail
       (callback_url today "/booking/success" 1)
       (callback_url today "/booking/cancel" 1) = Some checkout_page
  /\ cookie (booking today empty_shop no_session (POST (order 1 slot)))
     = {| pending_booking_id := Some 1 |}
  /\ reply (booking today empty_shop no_session (POST (order 1 slot)))
     = redirect "https://checkout.example/pay".
Proof.
  assert (H1 : BookingForm.validate (lib today) empty_shop (now_ today)
                 (utcnow_ today) (order 1 slot) = true)
    by (vm_compute; reflexivity).
  assert (H2 : products empty_shop !! 1 = Some detail) by reflexivity.
  assert (H3 : create_stripe_checkout_session (gateway today) detail
                 (callback_url today "/booking/success" 1)
                 (callback_url today "/booking/cancel" 1)
               = Some checkout_page) by (vm_compute; reflexivity).
  destruct (booking_creates_pending today empty_shop no_session
              (order 1 slot) 1 detail checkout_page H1 eq_refl H2 H3)
    as (_ & _ & _ & _ & _ & H4 & _ & H5).
  exact (conj H1 (conj H2 (conj H3 (conj H4 H5)))).
Defined.

Lemma booking_changes_only_on_checkout_witness :
  pk_fresh (one_booking PENDING)
  /\ sent (booking today (one_booking PENDING) no_session
             (POST (order 2 slot))) = []
  /\ products (store (booking today (one_booking PENDING) no_session
                        (POST (order 2 slot))))
     = products (one_booking PENDING).
Proof.
  assert (H1 : pk_fresh (one_booking PENDING)) by reflexivity.
  destruct (booking_changes_only_on_checkout today (one_booking PENDING)
              no_session (POST (order 2 slot)) H1) as (H2 & H3 & _).
  exact (conj H1 (conj H2 H3)).
Defined.

Lemma booking_rejects_taken_slot_witness :
  BookingForm.start (order 1 (at_ 100 11 0)) = Some (at_ 100 11 0)
  /\ bookings (one_booking PENDING) !! 1 = Some (ann PENDING slot)
  /\ active (ann PENDING slot) = true
  /\ at_ 100 11 0 < Booking.end_ (ann PENDING slot)
  /\ Booking.start (ann PENDING slot) < at_ 100 11 0 + timedelta.hours 2
  /\ store (booking today (one_booking PENDING) no_session
              (POST (order 1 (at_ 100 11 0)))) = one_booking PENDING.
Proof.
  assert (H1 : BookingForm.start (order 1 (at_ 100 11 0))
               = Some (at_ 100 11 0)) by reflexivity.
  assert (H2 : bookings (one_booking PENDING) !! 1 = Some (ann PENDING slot))
    by reflexivity.
  assert (H3 : active (ann PENDING slot) = true) by reflexivity.
  assert (H4 : at_ 100 11 0 < Booking.end_ (ann PENDING slot))
    by reflexivity.
  assert (H5 : Booking.start (ann PENDING slot)
               < at_ 100 11 0 + timedelta.hours 2) by reflexivity.
  destruct (booking_rejects_taken_slot today (one_booking PENDING) no_session
              (order 1 (at_ 100 11 0)) (at_ 100 11 0) 1 (ann PENDING slot)
              H1 H2 H3 H4 H5) as [H6 _].
  exact (conj H1 (conj H2 (conj H3 (conj H4 (conj H5
           (f_equal store H6)))))).
Defined.



Lemma bookings_ok_empty : bookings_ok empty_shop.
Proof.
  intros id b Hrow. simpl in Hrow. rewrite lookup_empty in Hrow.
  discriminate.
Defined.

Lemma bookings_ok_kept_witness :
  bookings_ok empty_shop
  /\ core_step empty_shop
       (store (booking today empty_shop no_session (POST (order 1 slot))))
  /\ bookings_ok
       (store (booking today empty_shop no_session (POST (order 1 slot)))).
Proof.
  assert (H1 : core_step empty_shop
                 (store (booking today empty_shop no_session
                           (POST (order 1 slot)))))
    by (apply step_booking; reflexivity).
  exact (conj bookings_ok_empty
           (conj H1 (bookings_ok_kept _ _ bookings_ok_empty H1))).
Defined.

Lemma booking_then_success_witness :
  BookingForm.validate (lib today) empty_shop (now_ today) (utcnow_ today)
    (order 1 slot) = true
  /\ products empty_shop !! 1 = Some detail
  /\ create_stripe_checkout_session (gateway today) detail
       (callback_url today "/booking/success" 1)
       (callback_url today "/booking/cancel" 1) = Some checkout_page
  /\ next_booking_id empty_shop <> 0
  /\ sent (booking_success today_down
             (store (booking today empty_shop no_session
                       (POST (order 1 slot))))
             (cookie (booking today empty_shop no_session
                        (POST (order 1 slot))))
             (no_args None))
     = [booking_confirmation "ann@example.com" 1;
        booking_notification "crypticmobiledetailing@gmail.com" 1].
Proof.
  assert (H1 : BookingForm.validate (lib today) empty_shop (now_ today)
                 (utcnow_ today) (order 1 slot) = true)
    by (vm_compute; reflexivity).
  assert (H2 : products empty_shop !! 1 = Some detail) by reflexivity.
  assert (H3 : create_stripe_checkout_session (gateway today) detail
                 (callback_url today "/booking/success" 1)
                 (callback_url today "/booking/cancel" 1)
               = Some checkout_page) by (vm_compute; reflexivity).
  assert (H4 : next_booking_id empty_shop <> 0) by discriminate.
  destruct (booking_then_success today today_down empty_shop no_session
              (order 1 slot) 1 detail checkout_page None H1 eq_refl H2 H3 H4)
    as (_ & _ & H5 & _).
  exact (conj H1 (conj H2 (conj H3 (conj H4 H5)))).
Defined.

Lemma booking_then_cancel_witness :
  pk_fresh empty_shop
  /\ BookingForm.validate (lib today) empty_shop (now_ today) (utcnow_ today)
       (order 1 slot) = true
  /\ products empty_shop !! 1 = Some detail
  /\ create_stripe_checkout_session (gateway today) detail
       (callback_url today "/booking/success" 1)
       (callback_url today "/booking/cancel" 1) = Some checkout_page
  /\ next_booking_id empty_shop <> 0
  /\ bookings (store (booking_cancel today_down
                        (store (booking today empty_shop no_session
                                  (POST (order 1 slot))))
                        (cookie (booking today empty_shop no_session
                                   (POST (order 1 slot))))
                        (no_args None)))
     = bookings empty_shop.
Proof.
  assert (H0 : pk_fresh empty_shop) by reflexivity.
  assert (H1 : BookingForm.validate (lib today) empty_shop (now_ today)
                 (utcnow_ today) (order 1 slot) = true)
    by (vm_compute; reflexivity).
  assert (H2 : products empty_shop !! 1 = Some detail) by reflexivity.
  assert (H3 : create_stripe_checkout_session (gateway today) detail
                 (callback_url today "/booking/success" 1)
                 (callback_url today "/booking/cancel" 1)
               = Some checkout_page) by (vm_compute; reflexivity).
  assert (H4 : next_booking_id empty_shop <> 0) by discriminate.
  destruct (booking_then_cancel today today_down empty_shop no_session
              (order 1 slot) 1 detail checkout_page None H0 H1 eq_refl H2 H3
              H4) as (_ & H5 & _).
  exact (conj H0 (conj H1 (conj H2 (conj H3 (conj H4 H5))))).
Defined.

Lemma callback_url_inj_witness :
  callback_url today "/booking/success" (2 + 3)
  = callback_url today "/booking/success" 5
  /\ 2 + 3 = 5.
Proof.
  assert (H1 : callback_url today "/booking/success" (2 + 3)
               = callback_url today "/booking/success" 5) by reflexivity.
  exact (conj H1 (callback_url_inj today "/booking/success" (2 + 3) 5 H1)).
Defined.

Lemma bookings_ok_one (status : BookingStatus) :
  bookings_ok (one_booking status).
Proof.
  intros id b Hrow. simpl in Hrow.
  destruct (decide (id = 1)) as [->|Hne].
  - rewrite lookup_insert_eq in Hrow. injection Hrow as <-.
    unfold booking_ok. simpl. split; [reflexivity|].
    split; [split; [discriminate | reflexivity]|].
    exists detail. reflexivity.
  - rewrite lookup_insert_ne, lookup_empty in Hrow by congruence.
    discriminate.
Defined.

Lemma admin_delete_product_keeps_bookings_ok_witness :
  bookings_ok (one_booking PENDING)
  /\ admin_delete_product (Some (staff ADMIN)) (one_booking PENDING) 2
     = served
         {| after :=
              {| products := delete 2 catalog;
                 bookings := bookings (one_booking PENDING);
                 next_booking_id := 2 |};
            notices := [("Product deleted successfully!", "success")];
            answer := redirect "/admin/products" |}
  /\ bookings_ok
       {| products := delete 2 catalog;
          bookings := bookings (one_booking PENDING);
          next_booking_id := 2 |}.
Proof.
  assert (H1 : admin_delete_product (Some (staff ADMIN))
                 (one_booking PENDING) 2
               = served
                   {| after :=
                        {| products := delete 2 catalog;
                           bookings := bookings (one_booking PENDING);
                           next_booking_id := 2 |};
                      notices :=
                        [("Product deleted successfully!", "success")];
                      answer := redirect "/admin/products" |})
    by (vm_compute; reflexivity).
  exact (conj (bookings_ok_one PENDING)
           (conj H1
              (admin_delete_product_keeps_bookings_ok _ _ _ _
                 (bookings_ok_one PENDING) H1))).
Defined.

Lemma success_moves_statistics_witness :
  User.role (staff ADMIN) = ADMIN
  /\ designated today (one_booking PENDING) no_session (by_id "1")
     = Some (1, ann PENDING slot)
  /\ products (one_booking PENDING) !! Booking.product_id (ann PENDING slot)
     = Some detail
  /\ admin_dashboard (Some (staff ADMIN)) (one_booking PENDING)
     = served (dashboard_page one_pending)
  /\ exists stats,
       admin_dashboard (Some (staff ADMIN))
         (store (booking_success today (one_booking PENDING) no_session
                   (by_id "1")))
       = served (dashboard_page stats)
       /\ total_bookings stats = 1%nat
       /\ confirmed_bookings stats = 1%nat
       /\ total_revenue stats = 7500.
Proof.
  assert (H1 : designated today (one_booking PENDING) no_session (by_id "1")
               = Some (1, ann PENDING slot)) by (vm_compute; reflexivity).
  assert (H2 : products (one_booking PENDING)
                 !! Booking.product_id (ann PENDING slot) = Some detail)
    by reflexivity.
  assert (H3 : admin_dashboard (Some (staff ADMIN)) (one_booking PENDING)
               = served (dashboard_page one_pending))
    by (vm_compute; reflexivity).
  destruct (success_moves_statistics today (one_booking PENDING) no_session
              (by_id "1") (staff ADMIN) 1 (ann PENDING slot) detail
              one_pending eq_refl H1 eq_refl H2 H3)
    as (stats & H4 & H5 & _ & H6 & H7).
  refine (conj eq_refl (conj H1 (conj H2 (conj H3 _)))).
  exists stats. exact (conj H4 (conj H5 (conj H6 H7))).
Defined.

Lemma accepted_slot_same_day_witness :
  BookingForm.validate_start ∅ (at_ 98 9 0) (at_ 100 17 30) = returns
  /\ hour (at_ 100 17 30 + timedelta.hours 2) = hour (at_ 100 17 30) + 2
  /\ 7 <= hour (at_ 100 17 30 + timedelta.hours 2) < 20.
Proof.
  assert (H1 : BookingForm.validate_start ∅ (at_ 98 9 0) (at_ 100 17 30)
               = returns) by (vm_compute; reflexivity).
  destruct (accepted_slot_same_day ∅ (at_ 98 9 0) (at_ 100 17 30) H1)
    as (H2 & H3 & _).
  exact (conj H1 (conj H2 H3)).
Defined.

Lemma booking_rejects_limited_email_witness :
  bookings (one_booking CONFIRMED) !! 1 = Some (ann CONFIRMED slot)
  /\ active (ann CONFIRMED slot) = true
  /\ Booking.email (ann CONFIRMED slot)
     = BookingForm.email (order 3 (at_ 103 9 0))
  /\ utcnow_ today - timedelta.days 7 <= Booking.start (ann CONFIRMED slot)
  /\ store (booking today (one_booking CONFIRMED) no_session
              (POST (order 3 (at_ 103 9 0)))) = one_booking CONFIRMED.
Proof.
  assert (H1 : bookings (one_booking CONFIRMED) !! 1
               = Some (ann CONFIRMED slot)) by reflexivity.
  assert (H2 : utcnow_ today - timedelta.days 7
               <= Booking.start (ann CONFIRMED slot)) by discriminate.
  destruct (booking_rejects_limited_email today (one_booking CONFIRMED)
              no_session (order 3 (at_ 103 9 0)) 1 (ann CONFIRMED slot)
              H1 eq_refl eq_refl H2) as [H3 _].
  exact (conj H1 (conj eq_refl (conj eq_refl (conj H2 (f_equal store H3))))).
Defined.

Lemma intersects_slots_witness :
  slot < at_ 100 12 0
  /\ Booking.start (bob CONFIRMED (at_ 100 12 0))
     < Booking.end_ (bob CONFIRMED (at_ 100 12 0))
  /\ at_ 100 12 0 = Booking.start (bob CONFIRMED (at_ 100 12 0))
  /\ Booking.intersects slot (at_ 100 12 0) (bob CONFIRMED (at_ 100 12 0))
     = false.
Proof.
  assert (H1 : slot < at_ 100 12 0) by reflexivity.
  assert (H2 : Booking.start (bob CONFIRMED (at_ 100 12 0))
               < Booking.end_ (bob CONFIRMED (at_ 100 12 0)))
    by reflexivity.
  assert (H3 : at_ 100 12 0 = Booking.start (bob CONFIRMED (at_ 100 12 0)))
    by reflexivity.
  destruct (intersects_slots slot (at_ 100 12 0)
              (bob CONFIRMED (at_ 100 12 0))) as [_ Hproper].
  destruct (Hproper H1 H2) as [_ Htouch].
  exact (conj H1 (conj H2 (conj H3 (Htouch (or_intror H3))))).
Defined.

Lemma booking_success_twice_witness :
  truthy (booking_id (by_id "1")) = true
  /\ booking_success today
       (store (booking_success today (one_booking PENDING) no_session
                 (by_id "1")))
       (cookie (booking_success today (one_booking PENDING) no_session
                  (by_id "1")))
       (by_id "1")
     = booking_success today (one_booking PENDING) no_session (by_id "1").
Proof.
  assert (H1 : truthy (booking_id (by_id "1")) = true) by reflexivity.
  destruct (booking_success_twice today (one_booking PENDING) no_session
              (by_id "1")) as [Hurl _].
  exact (conj H1 (Hurl H1)).
Defined.

Lemma get_domain_cases_witness :
  truthy (replit "a.example,b.example" !! "REPLIT_DEPLOYMENT") = false
  /\ replit "a.example,b.example" !! "REPLIT_DOMAINS"
     = Some "a.example,b.example"
  /\ exists first_domain,
       utils.get_domain (replit "a.example,b.example") = Some first_domain
       /\ has_comma first_domain = false.
Proof.
  assert (H1 : truthy (replit "a.example,b.example" !! "REPLIT_DEPLOYMENT")
               = false) by reflexivity.
  assert (H2 : replit "a.example,b.example" !! "REPLIT_DOMAINS"
               = Some "a.example,b.example") by reflexivity.
  assert (H3 : "a.example,b.example" <> "") by discriminate.
  destruct (get_domain_cases (replit "a.example,b.example"))
    as (_ & _ & Hsplit).
  destruct (Hsplit "a.example,b.example" H1 H2 H3)
    as (first_domain & H4 & H5 & _).
  exact (conj H1 (conj H2 (ex_intro _ first_domain (conj H4 H5)))).
Defined.

Lemma admin_delete_product_guard_witness :
  admin_delete_product (Some (staff ADMIN)) (one_booking PENDING) 1
  = served
      {| after := one_booking PENDING;
         notices :=
           [("Cannot delete product with existing bookings.", "error")];
         answer := redirect "/admin/products" |}
  /\ bookings (one_booking PENDING) !! 1 = Some (ann PENDING slot)
  /\ products (one_booking PENDING) !! 1 = Some detail
  /\ products (one_booking PENDING) !! 3 = Some wax.
Proof.
  assert (H1 : admin_delete_product (Some (staff ADMIN))
                 (one_booking PENDING) 1
               = served
                   {| after := one_booking PENDING;
                      notices :=
                        [("Cannot delete product with existing bookings.",
                          "error")];
                      answer := redirect "/admin/products" |})
    by (vm_compute; reflexivity).
  assert (H2 : bookings (one_booking PENDING) !! 1
               = Some (ann PENDING slot)) by reflexivity.
  assert (H3 : products (one_booking PENDING) !! 1 = Some detail)
    by reflexivity.
  destruct (admin_delete_product_guard (Some (staff ADMIN))
              (one_booking PENDING) 1) as [_ Hserved].
  destruct (Hserved _ H1) as (_ & Hother & _ & _).
  assert (H4 : products (one_booking PENDING) !! 3 = Some wax).
  { rewrite <- (Hother 3) by discriminate. reflexivity. }
  exact (conj H1 (conj H2 (conj H3 H4))).
Defined.

Lemma admin_dashboard_statistics_witness :
  User.role (staff ADMIN) = ADMIN
  /\ bookings_ok (one_booking PENDING)
  /\ exists stats,
       admin_dashboard (Some (staff ADMIN)) (one_booking PENDING)
       = served (dashboard_page stats)
       /\ total_bookings stats = size (bookings (one_booking PENDING))
       /\ (pending_bookings stats + confirmed_bookings stats
           <= total_bookings stats)%nat.
Proof.
  destruct (admin_dashboard_statistics (Some (staff ADMIN))
              (one_booking PENDING)) as (_ & _ & Hadmin).
  destruct (Hadmin (staff ADMIN) eq_refl eq_refl (bookings_ok_one PENDING))
    as (stats & H1 & H2 & H3 & _).
  exact (conj eq_refl
           (conj (bookings_ok_one PENDING)
              (ex_intro _ stats (conj H1 (conj H2 H3))))).
Defined.
